(** * Containers of the cloud-files client binding

    A shallow embedding of [cloudfiles/container.py]: the [Container] handle
    with its CDN publication methods and object operations, and the
    [ContainerResults] view.  Python values are an inductive type with the
    interpreter's truthiness; a method is a computation in a state and
    exception monad whose state is the receiver together with the trace of
    what was sent to, and read from, the connection collaborator. *)

From Stdlib Require Import ZArith String Ascii List Bool Lia DecimalString.
From stdpp Require Import gmap strings list fin_maps.

Local Open Scope string_scope.
Local Open Scope list_scope.
Local Open Scope Z_scope.

(** ** Python values *)

Module Py.

(** The values that reach this module: [None], booleans, integers and
    strings ([str] and [unicode] are both [VStr]: the code never tells
    them apart). *)
Inductive value :=
| VNone
| VBool (b : bool)
| VInt (n : Z)
| VStr (s : string).

#[global] Instance value_eq_dec : EqDecision value.
Proof. solve_decision. Defined.

(** [bool(v)], as used by [if v:], [not v] and [v or w]. *)
Definition truthy (v : value) : bool :=
  match v with
  | VNone => false
  | VBool b => b
  | VInt n => negb (n =? 0)
  | VStr s => negb (String.eqb s "")
  end.

(** [v or w] *)
Definition or_ (v w : value) : value := if truthy v then v else w.

(** [v is not None] *)
Definition is_not_none (v : value) : bool :=
  match v with VNone => false | _ => true end.

(** [isinstance(v, (str, unicode))] *)
Definition is_string (v : value) : bool :=
  match v with VStr _ => true | _ => false end.

(** [c in s] for a one-character [c]. *)
Fixpoint char_in (c : ascii) (s : string) : bool :=
  match s with
  | EmptyString => false
  | String a s' => Ascii.eqb a c || char_in c s'
  end.

(** [str(v)] *)
Definition str (v : value) : string :=
  match v with
  | VNone => "None"
  | VBool true => "True"
  | VBool false => "False"
  | VInt n => NilZero.string_of_int (Z.to_int n)
  | VStr s => s
  end.

(** [s.lower()] on ASCII text. *)
Definition lower_char (a : ascii) : ascii :=
  let n := nat_of_ascii a in
  if ((65 <=? n) && (n <=? 90))%nat then ascii_of_nat (n + 32) else a.

Fixpoint lower (s : string) : string :=
  match s with
  | EmptyString => EmptyString
  | String a s' => String (lower_char a) (lower s')
  end.

(** White space as [str.strip] and [int] see it. *)
Definition is_space (a : ascii) : bool :=
  let n := nat_of_ascii a in
  ((n =? 32) || ((9 <=? n) && (n <=? 13)))%nat.

Fixpoint lstrip (s : string) : string :=
  match s with
  | String a s' => if is_space a then lstrip s' else s
  | EmptyString => EmptyString
  end.

(** The digits of a literal, then only white space; [acc] is the value
    read so far and [seen] tells whether a digit was read. *)
Fixpoint digits (s : string) (acc : Z) (seen : bool) : option Z :=
  match s with
  | EmptyString => if seen then Some acc else None
  | String a s' =>
      let n := nat_of_ascii a in
      if ((48 <=? n) && (n <=? 57))%nat
      then digits s' (10 * acc + Z.of_nat (n - 48)) true
      else if seen && String.eqb (lstrip s) "" then Some acc else None
  end.

(** [int(s)] in base ten: optional white space, an optional sign, digits,
    optional white space; [None] stands for [ValueError]. *)
Definition int (s : string) : option Z :=
  match lstrip s with
  | String "-" s' => Z.opp <$> digits s' 0 false
  | String "+" s' => digits s' 0 false
  | s' => digits s' 0 false
  end.

(** [s.splitlines()]: lines end at a line feed, a carriage return or the
    pair of them; a final line break opens no empty last line.  [cur] is
    the line being read, reversed. *)
Fixpoint splitlines_aux (s : string) (cur : list ascii) : list string :=
  match s with
  | EmptyString =>
      match cur with
      | [] => []
      | _ => [string_of_list_ascii (rev cur)]
      end
  | String a s' =>
      if Ascii.eqb a "010" then
        string_of_list_ascii (rev cur) :: splitlines_aux s' []
      else if Ascii.eqb a "013" then
        match s' with
        | String b s'' =>
            if Ascii.eqb b "010"
            then string_of_list_ascii (rev cur) :: splitlines_aux s'' []
            else string_of_list_ascii (rev cur) :: splitlines_aux s' []
        | EmptyString => [string_of_list_ascii (rev cur)]
        end
      else splitlines_aux s' (a :: cur)
  end.

Definition splitlines (s : string) : list string := splitlines_aux s [].

(** [l[i:j]] on a list: negative bounds count from the end, and both are
    clamped to the list. *)
Definition clamp (len i : Z) : nat :=
  Z.to_nat (Z.min len (Z.max 0 (if i <? 0 then i + len else i))).

Definition slice {A} (l : list A) (i j : Z) : list A :=
  let len := Z.of_nat (length l) in
  let lo := clamp len i in
  let hi := clamp len j in
  take (hi - lo) (drop lo l).

End Py.

Import Py.

(** ** Exceptions, and the monad of methods *)

Inductive exn :=
| InvalidContainerName (name : value)
| InvalidObjectName (name : value)
| ContainerNotPublic
| CDNNotEnabled
| ResponseError (status : Z) (reason : string)
| AttributeError (attribute : string)
| ValueError (literal : string)
| IndexError
| TransportError (message : string).

Inductive result (A : Type) :=
| Ok (a : A)
| Raise (e : exn).
Arguments Ok {A} a.
Arguments Raise {A} e.

(** A computation over a state [S] that returns or raises; the state
    reached is kept in both cases, as an exception undoes no assignment. *)
Definition M (S A : Type) : Type := S -> result A * S.

#[global] Instance M_ret {S} : MRet (M S) := fun A a s => (Ok a, s).

#[global] Instance M_bind {S} : MBind (M S) := fun A B f m s =>
  match m s with
  | (Ok a, s') => f a s'
  | (Raise e, s') => (Raise e, s')
  end.

Definition raise {S A} (e : exn) : M S A := fun s => (Raise e, s).
Definition modify {S} (f : S -> S) : M S unit := fun s => (Ok tt, f s).
Definition lift {S A} (r : result A) : M S A := fun s => (r, s).

(** [for x in l: f(x)] *)
Fixpoint for_each {S A} (l : list A) (f : A -> M S unit) : M S unit :=
  match l with
  | [] => mret tt
  | x :: l' => f x ;; for_each l' f
  end.

(** [[f(x) for x in l]] *)
Fixpoint comprehension {S A B} (l : list A) (f : A -> M S B) : M S (list B) :=
  match l with
  | [] => mret []
  | x :: l' => y ← f x; ys ← comprehension l' f; mret (y :: ys)
  end.

(** ** The connection collaborator *)

Inductive endpoint := Storage | CDN.

Record Request := {
  rq_endpoint : endpoint;
  rq_method : string;
  rq_path : list value;
  rq_parms : option (gmap string value);
  rq_hdrs : option (gmap string value)
}.

Record Response := {
  status : Z;
  reason : string;
  getheaders : list (string * string);
  body : string
}.

(** What a method does to the outside: a request handed to the
    connection, or the body of a response read to its end. *)
Inductive event :=
| Sent (rq : Request)
| BodyRead (r : Response).

(** A connection: its CDN capability flag, and how the service answers a
    request given everything that happened before (a response, or an
    exception of the request layer). *)
Record Connection := {
  cdn_enabled : bool;
  answer : list event -> Request -> result Response
}.

Definition send (k : Connection) (rq : Request) : M (list event) Response :=
  fun w => (answer k w rq, w ++ [Sent rq]).

(** [conn.make_request(method, path, parms=parms)] *)
Definition make_request (k : Connection) (method : string) (path : list value)
    (parms : option (gmap string value)) : M (list event) Response :=
  send k {| rq_endpoint := Storage; rq_method := method; rq_path := path;
            rq_parms := parms; rq_hdrs := None |}.

(** [conn.cdn_request(method, path, hdrs=hdrs)] *)
Definition cdn_request (k : Connection) (method : string) (path : list value)
    (hdrs : option (gmap string value)) : M (list event) Response :=
  send k {| rq_endpoint := CDN; rq_method := method; rq_path := path;
            rq_parms := None; rq_hdrs := hdrs |}.

(** [response.read()] *)
Definition read (r : Response) : M (list event) string :=
  fun w => (Ok (body r), w ++ [BodyRead r]).

(** What may be passed where a connection is expected: the language
    checks nothing, and an attribute is looked up when it is used. *)
Inductive object :=
| OConnection (k : Connection)
| OList (l : list value)
| ONone.

Definition getattr_cdn_enabled (o : object) : result bool :=
  match o with
  | OConnection k => Ok (cdn_enabled k)
  | _ => Raise (AttributeError "cdn_enabled")
  end.

Definition call_cdn_request (o : object) (method : string) (path : list value)
    (hdrs : option (gmap string value)) : M (list event) Response :=
  match o with
  | OConnection k => cdn_request k method path hdrs
  | _ => raise (AttributeError "cdn_request")
  end.

Definition call_make_request (o : object) (method : string) (path : list value)
    (parms : option (gmap string value)) : M (list event) Response :=
  match o with
  | OConnection k => make_request k method path parms
  | _ => raise (AttributeError "make_request")
  end.

(** [200 <= status < 300], in the three spellings of the source. *)
Definition status_in_2xx (st : Z) : bool := (st >=? 200) && (st <? 300).
Definition status_lt_200_or_ge_300 (st : Z) : bool := (st <? 200) || (st >=? 300).
Definition status_lt_200_or_gt_299 (st : Z) : bool := (st <? 200) || (st >? 299).

(** ** Storage objects (the collaborator of [storage_object]) *)

(** Modelled from the spec: the [Object] handle of [storage_object], which
    is not among the sources; of a handle this module reads the name only. *)
Record Object := { ob_name : value }.

(** The argument of [delete_object]: a bare name or an object handle. *)
Inductive name_or_handle :=
| Name (v : value)
| Handle (o : Object).

(** ** Container *)

Module Container.

Record t := {
  _name : value;
  conn : object;
  object_count : value;
  size_used : value;
  cdn_uri : value;
  cdn_ttl : value;
  cdn_agent_acl : value;
  cdn_referer_acl : value
}.

(** The state of a method call: the receiver and the trace so far. *)
Abbreviation St := (t * list event)%type.

Definition set__name (v : value) (c : t) : t :=
  {| _name := v; conn := conn c; object_count := object_count c;
     size_used := size_used c; cdn_uri := cdn_uri c; cdn_ttl := cdn_ttl c;
     cdn_agent_acl := cdn_agent_acl c; cdn_referer_acl := cdn_referer_acl c |}.

Definition set_conn (o : object) (c : t) : t :=
  {| _name := _name c; conn := o; object_count := object_count c;
     size_used := size_used c; cdn_uri := cdn_uri c; cdn_ttl := cdn_ttl c;
     cdn_agent_acl := cdn_agent_acl c; cdn_referer_acl := cdn_referer_acl c |}.

Definition set_object_count (v : value) (c : t) : t :=
  {| _name := _name c; conn := conn c; object_count := v;
     size_used := size_used c; cdn_uri := cdn_uri c; cdn_ttl := cdn_ttl c;
     cdn_agent_acl := cdn_agent_acl c; cdn_referer_acl := cdn_referer_acl c |}.

Definition set_size_used (v : value) (c : t) : t :=
  {| _name := _name c; conn := conn c; object_count := object_count c;
     size_used := v; cdn_uri := cdn_uri c; cdn_ttl := cdn_ttl c;
     cdn_agent_acl := cdn_agent_acl c; cdn_referer_acl := cdn_referer_acl c |}.

Definition set_cdn_uri (v : value) (c : t) : t :=
  {| _name := _name c; conn := conn c; object_count := object_count c;
     size_used := size_used c; cdn_uri := v; cdn_ttl := cdn_ttl c;
     cdn_agent_acl := cdn_agent_acl c; cdn_referer_acl := cdn_referer_acl c |}.

Definition set_cdn_ttl (v : value) (c : t) : t :=
  {| _name := _name c; conn := conn c; object_count := object_count c;
     size_used := size_used c; cdn_uri := cdn_uri c; cdn_ttl := v;
     cdn_agent_acl := cdn_agent_acl c; cdn_referer_acl := cdn_referer_acl c |}.

Definition set_cdn_agent_acl (v : value) (c : t) : t :=
  {| _name := _name c; conn := conn c; object_count := object_count c;
     size_used := size_used c; cdn_uri := cdn_uri c; cdn_ttl := cdn_ttl c;
     cdn_agent_acl := v; cdn_referer_acl := cdn_referer_acl c |}.

Definition set_cdn_referer_acl (v : value) (c : t) : t :=
  {| _name := _name c; conn := conn c; object_count := object_count c;
     size_used := size_used c; cdn_uri := cdn_uri c; cdn_ttl := cdn_ttl c;
     cdn_agent_acl := cdn_agent_acl c; cdn_referer_acl := v |}.

(** [self] *)
Definition self_ : M St t := fun s => (Ok (fst s), s).

(** [self.x = v] *)
Definition assign (f : t -> t) : M St unit :=
  modify (fun s => (f (fst s), snd s)).

(** A call on the connection, inside a method. *)
Definition io {A} (m : M (list event) A) : M St A :=
  fun s => let (r, w) := m (snd s) in (r, (fst s, w)).

(** [name = property(fget=lambda self: self._name, fset=__set_name)] *)
Definition name (self : t) : value := _name self.

(** ['/' in name] *)
Definition has_slash (name : value) : bool :=
  match name with
  | VStr s => char_in "/" s
  | _ => false
  end.

Definition __set_name (name : value) : M St unit :=
  if is_string name && has_slash name
  then raise (InvalidContainerName name)
  else assign (set__name name).

(** Modelled from the spec: the decorator [requires_name] of [utils], which
    is not among the sources.  A method under it requires a non-empty name:
    when the receiver's name is empty or unset, the call raises the given
    naming error and the method body does not run. *)
Definition requires_name {A} (exc_class : value -> exn) (f : M St A) : M St A :=
  self ← self_;
  if truthy (name self) then f else raise (exc_class (name self)).

Definition when (b : bool) (m : M St unit) : M St unit :=
  if b then m else mret tt.

(** The body of the loop over the response headers in [_fetch_cdn_data]. *)
Definition _fetch_cdn_data_hdr (hdr : string * string) : M St unit :=
  when (String.eqb (lower (fst hdr)) "x-cdn-uri")
    (assign (set_cdn_uri (VStr (snd hdr)))) ;;
  when (String.eqb (lower (fst hdr)) "x-ttl")
    (match Py.int (snd hdr) with
     | Some n => assign (set_cdn_ttl (VInt n))
     | None => raise (ValueError (snd hdr))
     end) ;;
  when (String.eqb (lower (fst hdr)) "x-user-agent-acl")
    (assign (set_cdn_agent_acl (VStr (snd hdr)))) ;;
  when (String.eqb (lower (fst hdr)) "x-referrer-acl")
    (assign (set_cdn_referer_acl (VStr (snd hdr)))).

Definition _fetch_cdn_data : M St unit :=
  requires_name InvalidContainerName (
    self ← self_;
    response ← io (call_cdn_request (conn self) "HEAD" [name self] None);
    when (status_in_2xx (status response))
      (for_each (getheaders response) _fetch_cdn_data_hdr)).

(** The object before [__init__] has assigned anything. *)
Definition blank : t :=
  {| _name := VNone; conn := ONone; object_count := VNone; size_used := VNone;
     cdn_uri := VNone; cdn_ttl := VNone; cdn_agent_acl := VNone;
     cdn_referer_acl := VNone |}.

Definition __init__body (connection : object) (name count size : value) : M St unit :=
  assign (set__name VNone) ;;
  __set_name name ;;
  assign (set_conn connection) ;;
  assign (set_object_count count) ;;
  assign (set_size_used size) ;;
  assign (set_cdn_uri VNone) ;;
  assign (set_cdn_ttl VNone) ;;
  assign (set_cdn_agent_acl VNone) ;;
  assign (set_cdn_referer_acl VNone) ;;
  enabled ← lift (getattr_cdn_enabled connection);
  when enabled _fetch_cdn_data.

(** [Container(connection, name, count, size)]: the new object when
    [__init__] returns, nothing when it raises. *)
Definition __init__ (connection : object) (name count size : value)
    : M (list event) t :=
  fun w =>
    match __init__body connection name count size (blank, w) with
    | (Ok _, (self, w')) => (Ok self, w')
    | (Raise e, (_, w')) => (Raise e, w')
    end.

(** The body of the loop over the response headers in [make_public]. *)
Definition make_public_hdr (hdr : string * string) : M St unit :=
  when (String.eqb (lower (fst hdr)) "x-cdn-uri")
    (assign (set_cdn_uri (VStr (snd hdr)))).

Definition make_public (ttl user_agent_acl referer_acl : value) : M St unit :=
  requires_name InvalidContainerName (
    self ← self_;
    enabled ← lift (getattr_cdn_enabled (conn self));
    if negb enabled then raise CDNNotEnabled else
    let '(request_method, user_agent_acl, referer_acl) :=
      if truthy (cdn_uri self)
      then ("POST", or_ user_agent_acl (cdn_agent_acl self),
                    or_ referer_acl (cdn_referer_acl self))
      else ("PUT", user_agent_acl, referer_acl) in
    let hdrs : gmap string value :=
      <["X-TTL" := VStr (Py.str ttl)]> (<["X-CDN-Enabled" := VStr "True"]> ∅) in
    let hdrs := if truthy user_agent_acl
                then <["X-User-Agent-ACL" := user_agent_acl]> hdrs else hdrs in
    let hdrs := if truthy referer_acl
                then <["X-Referrer-ACL" := referer_acl]> hdrs else hdrs in
    response ← io (call_cdn_request (conn self) request_method [name self] (Some hdrs));
    if status_lt_200_or_ge_300 (status response)
    then raise (ResponseError (status response) (reason response))
    else
      assign (set_cdn_ttl ttl) ;;
      assign (set_cdn_agent_acl user_agent_acl) ;;
      assign (set_cdn_referer_acl referer_acl) ;;
      for_each (getheaders response) make_public_hdr).

Definition make_private : M St unit :=
  requires_name InvalidContainerName (
    self ← self_;
    enabled ← lift (getattr_cdn_enabled (conn self));
    if negb enabled then raise CDNNotEnabled else
    let hdrs : gmap string value := <["X-CDN-Enabled" := VStr "False"]> ∅ in
    response ← io (call_cdn_request (conn self) "POST" [name self] (Some hdrs));
    if status_lt_200_or_ge_300 (status response)
    then raise (ResponseError (status response) (reason response))
    else mret tt).

Definition is_public : M St bool :=
  self ← self_;
  enabled ← lift (getattr_cdn_enabled (conn self));
  if negb enabled then raise CDNNotEnabled else
  mret (is_not_none (cdn_uri self)).

Definition public_uri : M St value :=
  requires_name InvalidContainerName (
    public ← is_public;
    if negb public then raise ContainerNotPublic else
    self ← self_;
    mret (cdn_uri self)).

Definition list_objects (parms : gmap string value) : M St (list string) :=
  requires_name InvalidContainerName (
    self ← self_;
    response ← io (call_make_request (conn self) "GET" [name self] (Some parms));
    if status_lt_200_or_gt_299 (status response)
    then buff ← io (read response);
         raise (ResponseError (status response) (reason response))
    else text ← io (read response);
         mret (splitlines text)).

Definition delete_object (object_name : name_or_handle) : M St unit :=
  requires_name InvalidContainerName (
    let object_name :=
      match object_name with
      | Handle o => ob_name o
      | Name v => v
      end in
    if negb (truthy object_name) then raise (InvalidObjectName object_name) else
    self ← self_;
    response ← io (call_make_request (conn self) "DELETE" [name self; object_name] None);
    if status_lt_200_or_gt_299 (status response)
    then buff ← io (read response);
         raise (ResponseError (status response) (reason response))
    else buff ← io (read response);
         mret tt).

(** Modelled from the spec: the [ObjectResults] view of [storage_object],
    which is not among the sources; it wraps the container and the names
    that were listed. *)
Record ObjectResults := {
  or_container : t;
  or_names : list string
}.

Definition get_objects (parms : gmap string value) : M St ObjectResults :=
  requires_name InvalidContainerName (
    names ← list_objects parms;
    self ← self_;
    mret {| or_container := self; or_names := names |}).

End Container.

(** ** ContainerResults *)

Module ContainerResults.

Record t := {
  _containers : list value;
  conn : object
}.

Definition __init__ (conn : object) (containers : list value) : t :=
  {| _containers := containers; conn := conn |}.

(** [l[key]] for an integer [key]: a negative key counts from the end. *)
Definition item (l : list value) (key : Z) : result value :=
  let i := if key <? 0 then key + Z.of_nat (length l) else key in
  if i <? 0 then Raise IndexError else
  match l !! Z.to_nat i with
  | Some v => Ok v
  | None => Raise IndexError
  end.

Definition __getitem__ (self : t) (key : Z) : M (list event) Container.t :=
  k ← lift (item (_containers self) key);
  Container.__init__ (conn self) k VNone VNone.

Definition __getslice__ (self : t) (i j : Z) : M (list event) (list Container.t) :=
  comprehension (slice (_containers self) i j) (fun k =>
    Container.__init__ (OList (_containers self)) k VNone VNone).

(** [x == v] on values: a boolean equals the integer it stands for. *)
Definition equal (x v : value) : bool :=
  match x, v with
  | VNone, VNone => true
  | VStr s, VStr s' => String.eqb s s'
  | VInt n, VInt n' => n =? n'
  | VBool b, VBool b' => Bool.eqb b b'
  | VBool b, VInt n | VInt n, VBool b => n =? (if b then 1 else 0)
  | _, _ => false
  end.

(** [item in l] *)
Definition __contains__ (self : t) (item : value) : bool :=
  existsb (fun x => equal x item) (_containers self).

Definition __len__ (self : t) : Z := Z.of_nat (length (_containers self)).

(** The position of the first element equal to [v]. *)
Fixpoint first_index (l : list value) (v : value) : option nat :=
  match l with
  | [] => None
  | x :: l' => if equal x v then Some 0%nat else S <$> first_index l' v
  end.

(** [l.index(value, *args)] with up to two bounds, which are read as the
    bounds of a slice; no result stands for the [ValueError] of the list. *)
Definition index (self : t) (v : value) (start stop : option Z) : option Z :=
  let l := _containers self in
  let len := Z.of_nat (length l) in
  let lo := default 0 start in
  let hi := default len stop in
  (fun i => Z.of_nat (clamp len lo + i)) <$> first_index (slice l lo hi) v.

(** [l.count(value)] *)
Definition count (self : t) (v : value) : Z :=
  Z.of_nat (length (filter (fun x => equal x v = true) (_containers self))).

End ContainerResults.

(** ** Vocabulary of the statements *)

Import Container.

(** The value a request carries under a header name, if any. *)
Definition header_of (rq : Request) (key : string) : option value :=
  match rq_hdrs rq with
  | Some h => h !! key
  | None => None
  end.

(** A response carries the header [key] (given in lower case). *)
Definition has_header (key : string) (r : Response) : bool :=
  existsb (fun hdr => String.eqb (lower (fst hdr)) key) (getheaders r).

(** The trace a computation leaves, and its outcome. *)
Definition trace_of {A} (out : result A * St) : list event := snd (snd out).
Definition self_of {A} (out : result A * St) : t := fst (snd out).
Definition outcome {A} (out : result A * St) : result A := fst out.

(** A trace in which no response body was read. *)
Definition reads (w : list event) : list Response :=
  omap (fun e => match e with BodyRead r => Some r | Sent _ => None end) w.

(** The rule by which [make_public] shapes its one request, for a given
    reading [known] of when the container's URI counts as known: [POST]
    when known and [PUT] otherwise, to the CDN endpoint under the
    container's name; on the update an access-control argument left out
    stands for the cached value, a non-empty argument stands for itself,
    and a header goes out exactly for a non-empty resulting value. *)
Definition request_rule (known : value -> bool) (self : t) (w : list event)
    (ttl user_agent_acl referer_acl : value) : Prop :=
  exists (rq : Request) (agent referer : value),
    trace_of (make_public ttl user_agent_acl referer_acl (self, w)) = w ++ [Sent rq] /\
    rq_endpoint rq = CDN /\
    rq_path rq = [name self] /\
    rq_method rq = (if known (cdn_uri self) then "POST" else "PUT") /\
    (known (cdn_uri self) = true ->
       (user_agent_acl = VNone -> agent = cdn_agent_acl self) /\
       (referer_acl = VNone -> referer = cdn_referer_acl self)) /\
    (truthy user_agent_acl = true -> agent = user_agent_acl) /\
    (truthy referer_acl = true -> referer = referer_acl) /\
    header_of rq "X-TTL" = Some (VStr (Py.str ttl)) /\
    header_of rq "X-CDN-Enabled" = Some (VStr "True") /\
    header_of rq "X-User-Agent-ACL" = (if truthy agent then Some agent else None) /\
    header_of rq "X-Referrer-ACL" = (if truthy referer then Some referer else None).

(** A successful [make_public(ttl=3600)] leaves the lifetime at 3600 and
    the container public. *)
Definition publishes (self : t) (w : list event)
    (user_agent_acl referer_acl : value) : Prop :=
  forall self' w',
    make_public (VInt 3600) user_agent_acl referer_acl (self, w) = (Ok tt, (self', w')) ->
    cdn_ttl self' = VInt 3600 /\ outcome (is_public (self', w')) = Ok true.

(** The three CDN methods stop at the capability check, with nothing sent. *)
Definition stops_at_cdn_check (self : t) (w : list event) : Prop :=
  (forall ttl user_agent_acl referer_acl,
     make_public ttl user_agent_acl referer_acl (self, w) = (Raise CDNNotEnabled, (self, w))) /\
  make_private (self, w) = (Raise CDNNotEnabled, (self, w)) /\
  is_public (self, w) = (Raise CDNNotEnabled, (self, w)).

(** Construction validates the name: a container that is built has a name
    that is not empty and holds no separator, and a name that is empty or
    holds one makes construction raise the naming error at once. *)
Definition validates_name (connection : object) (nm count size : value)
    (w : list event) : Prop :=
  (forall self w', __init__ connection nm count size w = (Ok self, w') ->
     truthy (name self) = true /\ has_slash (name self) = false) /\
  (truthy nm = false \/ has_slash nm = true ->
     __init__ connection nm count size w = (Raise (InvalidContainerName nm), w)).

(** The computation has sent a request, and when the answer to that very
    request is a response outside the 2xx range, it ends in the response
    error that carries the status and the reason of that response. *)
Definition raises_on_failure {A} (k : Connection) (w : list event)
    (out : result A * St) : Prop :=
  exists rq rest,
    trace_of out = w ++ Sent rq :: rest /\
    forall r, answer k w rq = Ok r -> ~ (200 <= status r < 300) ->
      outcome out = Raise (ResponseError (status r) (reason r)).

(** The computation has sent a request, and when the connection raises in
    place of answering that very request, it ends in that exception with
    the container [c] as it was, the request on the trace and nothing
    read. *)
Definition passes_on_exception {A} (k : Connection) (c : t) (w : list event)
    (out : result A * St) : Prop :=
  exists rq rest,
    trace_of out = w ++ Sent rq :: rest /\
    forall e, answer k w rq = Raise e -> out = (Raise e, (c, w ++ [Sent rq])).

(** Sample services and containers. *)
Definition service (enabled : bool) (r : Response) : Connection :=
  {| cdn_enabled := enabled; answer := fun _ _ => Ok r |}.

Definition created : Response :=
  {| status := 201; reason := "Created";
     getheaders := [("X-CDN-URI", "http://cdn.example.com/photos")]; body := "" |}.

Definition accepted_bare : Response :=
  {| status := 202; reason := "Accepted"; getheaders := []; body := "" |}.

Definition empty_uri : Response :=
  {| status := 204; reason := "No Content";
     getheaders := [("X-CDN-URI", ""); ("X-User-Agent-ACL", "Mozilla")]; body := "" |}.

Definition not_found : Response :=
  {| status := 404; reason := "Not Found"; getheaders := []; body := "gone" |}.

Definition photos (k : Connection) : t :=
  {| _name := VStr "photos"; conn := OConnection k; object_count := VNone;
     size_used := VNone; cdn_uri := VNone; cdn_ttl := VNone;
     cdn_agent_acl := VNone; cdn_referer_acl := VNone |}.

Definition published (k : Connection) : t :=
  {| _name := VStr "photos"; conn := OConnection k; object_count := VNone;
     size_used := VNone; cdn_uri := VStr "http://cdn.example.com/photos";
     cdn_ttl := VInt 86400; cdn_agent_acl := VStr "Mozilla";
     cdn_referer_acl := VNone |}.

(** The container that [Container(conn, "photos")] yields when the CDN
    service answers the metadata request with an empty URI header. *)
Definition stale (k : Connection) : t :=
  {| _name := VStr "photos"; conn := OConnection k; object_count := VNone;
     size_used := VNone; cdn_uri := VStr ""; cdn_ttl := VNone;
     cdn_agent_acl := VStr "Mozilla"; cdn_referer_acl := VNone |}.

(** The container that [Container(conn)] yields on a connection without
    the CDN: the name keeps its default, [None]. *)
Definition unnamed (k : Connection) : t :=
  {| _name := VNone; conn := OConnection k; object_count := VNone;
     size_used := VNone; cdn_uri := VNone; cdn_ttl := VNone;
     cdn_agent_acl := VNone; cdn_referer_acl := VNone |}.

(** The value of the last header named [key] (in lower case), if any. *)
Definition last_header (key : string) (hdrs : list (string * string))
    : option string :=
  snd <$> find (fun hdr => String.eqb (lower (fst hdr)) key) (rev hdrs).

(** Every lifetime header of the list reads as an integer. *)
Definition ttl_headers_parse (hdrs : list (string * string)) : Prop :=
  forall hdr, In hdr hdrs -> lower (fst hdr) = "x-ttl" -> Py.int (snd hdr) <> None.

(** The request for the CDN metadata of a container. *)
Definition head_request (nm : value) : Request :=
  {| rq_endpoint := CDN; rq_method := "HEAD"; rq_path := [nm];
     rq_parms := None; rq_hdrs := None |}.

(** The container as [__init__] has it before the metadata fetch. *)
Definition fresh (connection : object) (nm count size : value) : t :=
  {| _name := nm; conn := connection; object_count := count; size_used := size;
     cdn_uri := VNone; cdn_ttl := VNone; cdn_agent_acl := VNone;
     cdn_referer_acl := VNone |}.

(** The listing body of a sequence of names: each followed by a line feed. *)
Definition listing (names : list string) : string :=
  fold_right (fun nm rest => nm +:+ String "010" rest) "" names.

(** A name that a listing can carry: no line break inside. *)
Definition one_line (nm : string) : Prop :=
  char_in "010" nm = false /\ char_in "013" nm = false.

(** The requests of a trace. *)
Definition sent (w : list event) : list Request :=
  omap (fun e => match e with Sent rq => Some rq | BodyRead _ => None end) w.

(** A computation adds at most one request to the trace it starts from. *)
Definition sends_at_most_one {A} (w : list event) (out : result A * St) : Prop :=
  exists evs, trace_of out = w ++ evs /\ (length (sent evs) <= 1)%nat.

(** [l[key]], by its name outside the module of the results. *)
Abbreviation item_at := ContainerResults.item.

(** * Properties *)

(** ** Values *)

Example str_of_ttl : Py.str (VInt 3600) = "3600".
Proof. reflexivity. Qed.

Example int_of_header : Py.int " 86400 " = Some 86400.
Proof. reflexivity. Qed.

Example int_of_text : Py.int "12h" = None.
Proof. reflexivity. Qed.

Example splitlines_listing : Py.splitlines ("a" +:+ String "010" ("b" +:+ String "013" (String "010" "c"))) = ["a"; "b"; "c"].
Proof. reflexivity. Qed.

Example slice_negative : Py.slice [1; 2; 3; 4] (-3) 3 = [2; 3].
Proof. reflexivity. Qed.

Lemma char_in_app (c : ascii) (s1 s2 : string) :
  char_in c (s1 +:+ String c s2) = true.
Proof.
  induction s1 as [|a s1 IH]; simpl.
  - now rewrite Ascii.eqb_refl.
  - rewrite IH. apply orb_true_r.
Qed.

Lemma char_in_split (c : ascii) (s : string) :
  char_in c s = true -> exists s1 s2, s = s1 +:+ String c s2.
Proof.
  induction s as [|a s IH]; simpl; [discriminate|].
  destruct (Ascii.eqb a c) eqn:E; simpl.
  - intros _. apply Ascii.eqb_eq in E. subst a. now exists "", s.
  - intros H. destruct (IH H) as (s1 & s2 & ->). now exists (String a s1), s2.
Qed.

(** ** The monad *)

Ltac run :=
  unfold requires_name, mbind, M_bind, mret, M_ret, raise, lift, self_,
    assign, modify, io, when, call_cdn_request, call_make_request,
    cdn_request, make_request, send, read, getattr_cdn_enabled; cbn.


Lemma for_each_cons {S A} (x : A) (l : list A) (f : A -> M S unit) (s : S) :
  for_each (x :: l) f s
  = match f x s with
    | (Ok _, s') => for_each l f s'
    | (Raise e, s') => (Raise e, s')
    end.
Proof. reflexivity. Qed.

(** ** Construction *)

Lemma set_name_rejects (s : string) (c : t) (w : list event) :
  char_in "/" s = true ->
  __set_name (VStr s) (c, w) = (Raise (InvalidContainerName (VStr s)), (c, w)).
Proof. intros H. unfold __set_name. cbn. rewrite H. reflexivity. Qed.

(** One header of the metadata answer touches the four CDN fields only
    and sends nothing. *)
Lemma fetch_hdr_frame (hdr : string * string) (c : t) (w : list event) :
  exists r c', _fetch_cdn_data_hdr hdr (c, w) = (r, (c', w)) /\
               _name c' = _name c /\ conn c' = conn c.
Proof.
  unfold _fetch_cdn_data_hdr. run.
  destruct (String.eqb (lower hdr.1) "x-cdn-uri");
  destruct (String.eqb (lower hdr.1) "x-ttl");
  try destruct (Py.int hdr.2);
  destruct (String.eqb (lower hdr.1) "x-user-agent-acl");
  destruct (String.eqb (lower hdr.1) "x-referrer-acl"); cbn;
  eexists _, _; (split; [reflexivity | now cbn]).
Qed.

Lemma fetch_loop_frame (hdrs : list (string * string)) (c : t) (w : list event) :
  exists r c', for_each hdrs _fetch_cdn_data_hdr (c, w) = (r, (c', w)) /\
               _name c' = _name c /\ conn c' = conn c.
Proof.
  revert c. induction hdrs as [|hdr hdrs IH]; intros c.
  - exists (Ok tt), c. now cbn.
  - rewrite for_each_cons.
    destruct (fetch_hdr_frame hdr c w) as (r & c1 & -> & Hn & Hc).
    destruct r as [[]|e].
    + destruct (IH c1) as (r & c' & -> & Hn' & Hc').
      exists r, c'. repeat split; congruence.
    + exists (Raise e), c1. now repeat split.
Qed.

(** The metadata fetch keeps the name and the connection of the receiver,
    and what it adds to the trace is at most the one request. *)
Lemma fetch_frame (c : t) (w : list event) :
  exists r c' w', _fetch_cdn_data (c, w) = (r, (c', w')) /\
                  _name c' = _name c /\ conn c' = conn c.
Proof.
  unfold _fetch_cdn_data. run. unfold name.
  destruct (truthy (_name c)); cbn; [|now eexists _, _, _].
  destruct (conn c) as [k| |] eqn:E; cbn; try now eexists _, _, _.
  match goal with |- context [answer k w ?rq] =>
    destruct (answer k w rq) as [r|e]; [|now eexists _, _, _];
    destruct (status_in_2xx (status r)); [|now eexists _, _, _];
    destruct (fetch_loop_frame (getheaders r) c (w ++ [Sent rq]))
      as (r' & c' & -> & ? & ?)
  end.
  eexists _, _, _. split; [reflexivity|]. split; congruence.
Qed.

Lemma fetch_unnamed (c : t) (w : list event) :
  truthy (name c) = false ->
  _fetch_cdn_data (c, w) = (Raise (InvalidContainerName (name c)), (c, w)).
Proof. intros H. unfold _fetch_cdn_data. run. now rewrite H. Qed.

Lemma has_slash_falsy (v : value) : truthy v = false -> has_slash v = false.
Proof.
  destruct v as [| | |s]; cbn; try reflexivity.
  destruct s; [reflexivity | discriminate].
Qed.

(** A name that holds the separator stops construction at the setter. *)
Lemma init_rejects_separator_aux (connection : object) (s1 s2 : string)
    (count size : value) (w : list event) :
  __init__ connection (VStr (s1 +:+ "/" +:+ s2)) count size w
  = (Raise (InvalidContainerName (VStr (s1 +:+ "/" +:+ s2))), w).
Proof.
  unfold __init__, __init__body. run.
  rewrite (set_name_rejects _ _ _ (char_in_app "/" s1 s2)). reflexivity.
Qed.

(** C5. A container cannot be built under a name that holds the separator:
    whatever the connection, the counts and the trace so far, construction
    raises the naming error for that name and the trace is left as it was,
    so that nothing was sent, the metadata fetch of the constructor
    included. *)
Theorem init_rejects_separator (connection : object) (s1 s2 : string)
    (count size : value) (w : list event) :
  __init__ connection (VStr (s1 +:+ "/" +:+ s2)) count size w
  = (Raise (InvalidContainerName (VStr (s1 +:+ "/" +:+ s2))), w).
Proof.
  unfold __init__, __init__body. run.
  rewrite (set_name_rejects _ _ _ (char_in_app "/" s1 s2)). reflexivity.
Qed.

Lemma init_run (connection : object) (nm count size : value) (w : list event) :
  has_slash nm = false ->
  __init__ connection nm count size w
  = match connection with
    | OConnection k =>
        let c := {| _name := nm; conn := connection; object_count := count;
                    size_used := size; cdn_uri := VNone; cdn_ttl := VNone;
                    cdn_agent_acl := VNone; cdn_referer_acl := VNone |} in
        if cdn_enabled k then
          match _fetch_cdn_data (c, w) with
          | (Ok _, (self, w')) => (Ok self, w')
          | (Raise e, (_, w')) => (Raise e, w')
          end
        else (Ok c, w)
    | _ => (Raise (AttributeError "cdn_enabled"), w)
    end.
Proof.
  intros H. unfold __init__, __init__body, __set_name. run.
  rewrite H, andb_false_r. cbn.
  destruct connection as [k| |]; cbn; try reflexivity.
  destruct (cdn_enabled k); reflexivity.
Qed.

(** C6. What construction checks of the name.  A container that is built
    has the name it was given, a name without separator, and a non-empty
    one when its connection has the CDN enabled; a name that holds a
    separator makes construction raise the naming error at once; so does
    an empty or unset name on a connection with the CDN enabled, through
    the name guard of the metadata fetch, before anything is sent; on a
    connection with the CDN disabled such a name is accepted. *)
Theorem init_checks_name (connection : object) (nm count size : value)
    (w : list event) :
  (forall self w', __init__ connection nm count size w = (Ok self, w') ->
     name self = nm /\ has_slash (name self) = false /\
     exists k, connection = OConnection k /\
               (cdn_enabled k = true -> truthy (name self) = true)) /\
  (has_slash nm = true ->
     __init__ connection nm count size w = (Raise (InvalidContainerName nm), w)) /\
  (forall k, connection = OConnection k -> truthy nm = false ->
     __init__ connection nm count size w
     = if cdn_enabled k
       then (Raise (InvalidContainerName nm), w)
       else (Ok {| _name := nm; conn := connection; object_count := count;
                   size_used := size; cdn_uri := VNone; cdn_ttl := VNone;
                   cdn_agent_acl := VNone; cdn_referer_acl := VNone |}, w)).
Proof.
  split; [|split].
  - intros self w' H. destruct (has_slash nm) eqn:Hs.
    + destruct nm as [| | |s]; try discriminate Hs.
      destruct (char_in_split _ _ Hs) as (s1 & s2 & ->).
      change (String "/" s2) with ("/" +:+ s2) in H.
      rewrite init_rejects_separator_aux in H. discriminate H.
    + rewrite (init_run _ _ _ _ _ Hs) in H.
      destruct connection as [k| |]; try discriminate H.
      cbn zeta in H. destruct (cdn_enabled k) eqn:Hk.
      * destruct (truthy nm) eqn:Ht.
        -- match type of H with context [_fetch_cdn_data (?c, w)] =>
             destruct (fetch_frame c w) as (r & c' & w1 & Hf & Hn & _) end.
           rewrite Hf in H. destruct r as [[]|e]; [|discriminate H].
           injection H as <- <-. unfold name. rewrite Hn. cbn.
           repeat split; try assumption. exists k. now split.
        -- rewrite fetch_unnamed in H by exact Ht. discriminate H.
      * injection H as <- <-. cbn. repeat split; try assumption.
        exists k. split; [reflexivity | congruence].
  - intros Hs. destruct nm as [| | |s]; try discriminate Hs.
    destruct (char_in_split _ _ Hs) as (s1 & s2 & ->).
    apply init_rejects_separator_aux.
  - intros k -> Ht. rewrite (init_run _ _ _ _ _ (has_slash_falsy _ Ht)).
    cbn zeta. destruct (cdn_enabled k); [|reflexivity].
    now rewrite fetch_unnamed by exact Ht.
Qed.

(** ** Publication *)

(** The loop over the answer of [make_public] stores the last URI header,
    if there is one, and nothing else. *)
Lemma store_uri_loop (hdrs : list (string * string)) (c : t) (w : list event) :
  exists uri,
    for_each hdrs make_public_hdr (c, w) = (Ok tt, (set_cdn_uri uri c, w)) /\
    (existsb (fun hdr => String.eqb (lower (fst hdr)) "x-cdn-uri") hdrs = true ->
       is_not_none uri = true) /\
    (existsb (fun hdr => String.eqb (lower (fst hdr)) "x-cdn-uri") hdrs = false ->
       uri = cdn_uri c).
Proof.
  revert c. induction hdrs as [|hdr hdrs IH]; intros c.
  - exists (cdn_uri c). split; [now destruct c | split; [discriminate | reflexivity]].
  - rewrite for_each_cons. unfold make_public_hdr at 1. run.
    destruct (String.eqb (lower hdr.1) "x-cdn-uri") eqn:E; cbn.
    + destruct (IH (set_cdn_uri (VStr hdr.2) c)) as (uri & -> & Hp & Ha).
      exists uri. split; [reflexivity|]. split; [|discriminate].
      intros _.
      destruct (existsb (fun hdr => String.eqb (lower (fst hdr)) "x-cdn-uri") hdrs).
      * now apply Hp.
      * now rewrite Ha.
    + destruct (IH c) as (uri & -> & Hp & Ha). now exists uri.
Qed.

(** What [make_public] does once its two guards are passed. *)
Lemma make_public_run (c : t) (w : list event) (k : Connection)
    (ttl user_agent_acl referer_acl : value) :
  conn c = OConnection k -> cdn_enabled k = true -> truthy (name c) = true ->
  let update := truthy (cdn_uri c) in
  let agent := if update then or_ user_agent_acl (cdn_agent_acl c) else user_agent_acl in
  let referer := if update then or_ referer_acl (cdn_referer_acl c) else referer_acl in
  let hdrs : gmap string value :=
    <["X-TTL" := VStr (Py.str ttl)]> (<["X-CDN-Enabled" := VStr "True"]> ∅) in
  let hdrs := if truthy agent then <["X-User-Agent-ACL" := agent]> hdrs else hdrs in
  let hdrs := if truthy referer then <["X-Referrer-ACL" := referer]> hdrs else hdrs in
  let rq := {| rq_endpoint := CDN; rq_method := if update then "POST" else "PUT";
               rq_path := [name c]; rq_parms := None; rq_hdrs := Some hdrs |} in
  make_public ttl user_agent_acl referer_acl (c, w)
  = match answer k w rq with
    | Ok r =>
        if status_lt_200_or_ge_300 (status r)
        then (Raise (ResponseError (status r) (reason r)), (c, w ++ [Sent rq]))
        else for_each (getheaders r) make_public_hdr
               (set_cdn_referer_acl referer (set_cdn_agent_acl agent (set_cdn_ttl ttl c)),
                w ++ [Sent rq])
    | Raise e => (Raise e, (c, w ++ [Sent rq]))
    end.
Proof.
  intros Hc Hk Hn. unfold make_public. run. rewrite Hn. cbn.
  rewrite Hc. cbn. rewrite Hk. cbn.
  destruct (truthy (cdn_uri c)); cbn;
  match goal with |- context [answer k w ?rq] => destruct (answer k w rq) as [r|e] end;
  cbn; try reflexivity;
  destruct (status_lt_200_or_ge_300 (status r)); reflexivity.
Qed.

Lemma acl_headers (ttl agent referer : value) :
  let hdrs : gmap string value :=
    <["X-TTL" := VStr (Py.str ttl)]> (<["X-CDN-Enabled" := VStr "True"]> ∅) in
  let hdrs := if truthy agent then <["X-User-Agent-ACL" := agent]> hdrs else hdrs in
  let hdrs := if truthy referer then <["X-Referrer-ACL" := referer]> hdrs else hdrs in
  hdrs !! "X-TTL" = Some (VStr (Py.str ttl)) /\
  hdrs !! "X-CDN-Enabled" = Some (VStr "True") /\
  hdrs !! "X-User-Agent-ACL" = (if truthy agent then Some agent else None) /\
  hdrs !! "X-Referrer-ACL" = (if truthy referer then Some referer else None).
Proof.
  cbn zeta. destruct (truthy agent), (truthy referer); repeat split;
    now simplify_map_eq.
Qed.

Lemma status_in_2xx_spec (st : Z) : status_in_2xx st = true <-> 200 <= st < 300.
Proof. unfold status_in_2xx. rewrite andb_true_iff, Z.geb_le, Z.ltb_lt. lia. Qed.

Lemma status_ge_300_spec (st : Z) :
  status_lt_200_or_ge_300 st = negb (status_in_2xx st).
Proof.
  unfold status_lt_200_or_ge_300, status_in_2xx.
  destruct (Z.ltb_spec st 200), (Z.geb_spec st 300), (Z.geb_spec st 200),
    (Z.ltb_spec st 300); cbn; try reflexivity; lia.
Qed.

Lemma status_gt_299_spec (st : Z) :
  status_lt_200_or_gt_299 st = negb (status_in_2xx st).
Proof.
  unfold status_lt_200_or_gt_299, status_in_2xx.
  destruct (Z.ltb_spec st 200), (Z.gtb_spec st 299), (Z.geb_spec st 200),
    (Z.ltb_spec st 300); cbn; try reflexivity; lia.
Qed.

(** The three ways a guarded [make_public] ends: the request layer raised,
    the answer was no success, or the answer was a success and the fields
    were stored. *)
Lemma make_public_outcome (c : t) (w : list event) (k : Connection)
    (ttl user_agent_acl referer_acl : value) :
  conn c = OConnection k -> cdn_enabled k = true -> truthy (name c) = true ->
  let update := truthy (cdn_uri c) in
  let agent := if update then or_ user_agent_acl (cdn_agent_acl c) else user_agent_acl in
  let referer := if update then or_ referer_acl (cdn_referer_acl c) else referer_acl in
  exists rq,
    rq_endpoint rq = CDN /\
    rq_method rq = (if update then "POST" else "PUT") /\
    rq_path rq = [name c] /\
    header_of rq "X-TTL" = Some (VStr (Py.str ttl)) /\
    header_of rq "X-CDN-Enabled" = Some (VStr "True") /\
    header_of rq "X-User-Agent-ACL" = (if truthy agent then Some agent else None) /\
    header_of rq "X-Referrer-ACL" = (if truthy referer then Some referer else None) /\
    ((exists e, answer k w rq = Raise e /\
        make_public ttl user_agent_acl referer_acl (c, w)
        = (Raise e, (c, w ++ [Sent rq]))) \/
     (exists r, answer k w rq = Ok r /\ status_in_2xx (status r) = false /\
        make_public ttl user_agent_acl referer_acl (c, w)
        = (Raise (ResponseError (status r) (reason r)), (c, w ++ [Sent rq]))) \/
     (exists r uri, answer k w rq = Ok r /\ status_in_2xx (status r) = true /\
        make_public ttl user_agent_acl referer_acl (c, w)
        = (Ok tt, (set_cdn_uri uri (set_cdn_referer_acl referer
                     (set_cdn_agent_acl agent (set_cdn_ttl ttl c))),
                   w ++ [Sent rq])) /\
        (has_header "x-cdn-uri" r = true -> is_not_none uri = true) /\
        (has_header "x-cdn-uri" r = false -> uri = cdn_uri c))).
Proof.
  intros Hc Hk Hn update agent referer.
  pose proof (make_public_run c w k ttl user_agent_acl referer_acl Hc Hk Hn) as Hrun.
  cbn zeta in Hrun. fold update in Hrun. fold agent in Hrun. fold referer in Hrun.
  destruct (acl_headers ttl agent referer) as (H1 & H2 & H3 & H4).
  match type of Hrun with context [answer k w ?rq0] => exists rq0 end.
  repeat (split; [first [reflexivity | assumption]|]).
  match type of Hrun with context [answer k w ?rq0] =>
    destruct (answer k w rq0) as [r|e] eqn:Ha end.
  - rewrite status_ge_300_spec in Hrun.
    destruct (status_in_2xx (status r)) eqn:Hs; cbn in Hrun.
    + right; right.
      match type of Hrun with context [for_each _ _ (?c1, ?w1)] =>
        destruct (store_uri_loop (getheaders r) c1 w1) as (uri & Hl & Hp & Hq) end.
      exists r, uri. rewrite Hrun, Hl. now repeat split.
    + right; left. exists r. now repeat split.
  - left. exists e. now split.
Qed.

(** A call that does not pass the guards changes nothing and sends nothing. *)
Lemma make_public_stopped (c : t) (w : list event)
    (ttl user_agent_acl referer_acl : value) :
  truthy (name c) = false \/ getattr_cdn_enabled (conn c) <> Ok true ->
  snd (make_public ttl user_agent_acl referer_acl (c, w)) = (c, w).
Proof.
  intros H. unfold make_public. run.
  destruct (truthy (name c)); [|reflexivity]. cbn.
  destruct H as [H|H]; [discriminate|].
  destruct (conn c) as [k| |]; cbn in *; try reflexivity.
  destruct (cdn_enabled k); [congruence | reflexivity].
Qed.

Lemma guards_cases (c : t) :
  (exists k, conn c = OConnection k /\ cdn_enabled k = true /\ truthy (name c) = true) \/
  (truthy (name c) = false \/ getattr_cdn_enabled (conn c) <> Ok true).
Proof.
  destruct (truthy (name c)); [|now right; left].
  destruct (conn c) as [k| |] eqn:E; cbn; try (right; right; discriminate).
  destruct (cdn_enabled k) eqn:Ek.
  - left. now exists k.
  - right; right. congruence.
Qed.

(** C1. The request of [make_public].  A call that passes the name guard
    and the capability check sends exactly one request, to the CDN
    endpoint under the container's name: [POST] when the cached URI is a
    non-empty string and [PUT] when it is [None] or empty.  On the update
    an access-control argument that was left out stands for the cached
    value, a non-empty argument stands for itself, and each of the two
    headers goes out exactly when the resulting value is non-empty. *)
Theorem make_public_request (c : t) (w : list event) (k : Connection)
    (ttl user_agent_acl referer_acl : value) :
  conn c = OConnection k -> cdn_enabled k = true -> truthy (name c) = true ->
  request_rule truthy c w ttl user_agent_acl referer_acl.
Proof.
  intros Hc Hk Hn.
  destruct (make_public_outcome c w k ttl user_agent_acl referer_acl Hc Hk Hn)
    as (rq & He & Hm & Hp & H1 & H2 & H3 & H4 & Hout).
  cbn zeta in *.
  exists rq,
    (if truthy (cdn_uri c) then or_ user_agent_acl (cdn_agent_acl c) else user_agent_acl),
    (if truthy (cdn_uri c) then or_ referer_acl (cdn_referer_acl c) else referer_acl).
  repeat split; try assumption.
  - destruct Hout as [(e & _ & ->)|[(r & _ & _ & ->)|(r & uri & _ & _ & -> & _)]];
      reflexivity.
  - intros ->. now rewrite H.
  - intros ->. now rewrite H.
  - intros Ht. unfold or_. rewrite Ht. now destruct (truthy (cdn_uri c)).
  - intros Ht. unfold or_. rewrite Ht. now destruct (truthy (cdn_uri c)).
Qed.

Example stale_is_built :
  __init__ (OConnection (service true empty_uri)) (VStr "photos") VNone VNone []
  = (Ok (stale (service true empty_uri)),
     [Sent {| rq_endpoint := CDN; rq_method := "HEAD"; rq_path := [VStr "photos"];
              rq_parms := None; rq_hdrs := None |}]).
Proof. reflexivity. Qed.

Example stale_is_public (w : list event) :
  outcome (is_public (stale (service true empty_uri), w)) = Ok true.
Proof. reflexivity. Qed.

(** The rule of C1 with "known" read as "not [None]" fails on a container
    whose cached URI is the empty string: the container counts as public,
    and yet [make_public] sends [PUT]. *)
Lemma make_public_puts_on_empty_uri :
  ~ request_rule is_not_none (stale (service true empty_uri)) []
      (VInt 3600) VNone VNone.
Proof.
  intros (rq & agent & referer & Htr & _ & _ & Hm & _).
  vm_compute in Htr. injection Htr as <-. vm_compute in Hm. discriminate Hm.
Qed.

Lemma make_public_request_witness :
  request_rule truthy (published (service true created)) []
    (VInt 3600) VNone (VStr "example.com").
Proof.
  apply (make_public_request (published (service true created)) []
           (service true created) (VInt 3600) VNone (VStr "example.com"));
    reflexivity.
Defined.

Lemma or_falsy (v cached : value) : truthy v = false -> or_ v cached = cached.
Proof. intros H. unfold or_. now rewrite H. Qed.

(** On the update path a falsy access-control argument is the same call
    as one without the argument. *)
Lemma make_public_update_falsy (c : t) (w : list event)
    (ttl a a' b b' : value) :
  truthy (cdn_uri c) = true ->
  or_ a (cdn_agent_acl c) = or_ a' (cdn_agent_acl c) ->
  or_ b (cdn_referer_acl c) = or_ b' (cdn_referer_acl c) ->
  make_public ttl a b (c, w) = make_public ttl a' b' (c, w).
Proof.
  intros Hu Ha Hb. unfold make_public. run.
  destruct (truthy (name c)); [|reflexivity]. cbn.
  destruct (conn c) as [k| |]; cbn; try reflexivity.
  destruct (cdn_enabled k); [|reflexivity]. cbn.
  rewrite Hu. cbn. now rewrite Ha, Hb.
Qed.

(** What a call of [make_public] on the update path leaves in an
    access-control field, whatever way the call ends. *)
Lemma make_public_update_fields (c : t) (w : list event)
    (ttl user_agent_acl referer_acl : value) (r : result unit) (c' : t)
    (w' : list event) :
  truthy (cdn_uri c) = true ->
  make_public ttl user_agent_acl referer_acl (c, w) = (r, (c', w')) ->
  (c' = c /\ r <> Ok tt) \/
  (r = Ok tt /\
   cdn_agent_acl c' = or_ user_agent_acl (cdn_agent_acl c) /\
   cdn_referer_acl c' = or_ referer_acl (cdn_referer_acl c)).
Proof.
  intros Hu Hrun.
  destruct (guards_cases c) as [(k & Hc & Hk & Hn)|Hstop].
  - destruct (make_public_outcome c w k ttl user_agent_acl referer_acl Hc Hk Hn)
      as (rq & _ & _ & _ & _ & _ & _ & _ & Hout).
    cbn zeta in Hout. rewrite Hu in Hout.
    destruct Hout as [(e & _ & E)|[(r0 & _ & _ & E)|(r0 & uri & _ & _ & E & _)]];
      rewrite E in Hrun; injection Hrun as <- <- <-.
    + left. now split.
    + left. now split.
    + right. now repeat split.
  - left. pose proof (make_public_stopped c w ttl user_agent_acl referer_acl Hstop) as E.
    rewrite Hrun in E. cbn in E. injection E as -> ->. split; [reflexivity|].
    intros ->. revert Hrun. unfold make_public. run.
    destruct Hstop as [Hn|Hg].
    + now rewrite Hn.
    + destruct (truthy (name c)); [|discriminate]. cbn.
      destruct (conn c) as [k| |]; cbn in *; try discriminate.
      destruct (cdn_enabled k); [congruence | discriminate].
Qed.

(** C10. On the update path, that is on a container whose cached URI
    makes [make_public] post an update, an empty or otherwise falsy
    access-control argument is the same call as one without the argument;
    the cached value takes its place, in the request, where the header
    goes out exactly when that value is non-empty, and in the field
    after a successful call; and whatever the arguments and the way the
    call ends, an access-control field that was non-empty is non-empty
    afterwards. *)
Theorem make_public_update_keeps_acl (c : t) (w : list event)
    (ttl user_agent_acl referer_acl : value) :
  truthy (cdn_uri c) = true ->
  (truthy user_agent_acl = false ->
     make_public ttl user_agent_acl referer_acl (c, w)
     = make_public ttl VNone referer_acl (c, w)) /\
  (truthy referer_acl = false ->
     make_public ttl user_agent_acl referer_acl (c, w)
     = make_public ttl user_agent_acl VNone (c, w)) /\
  (forall k, conn c = OConnection k -> cdn_enabled k = true ->
     truthy (name c) = true ->
     exists rq,
       trace_of (make_public ttl user_agent_acl referer_acl (c, w)) = w ++ [Sent rq] /\
       rq_method rq = "POST" /\
       (truthy user_agent_acl = false ->
          header_of rq "X-User-Agent-ACL"
          = if truthy (cdn_agent_acl c) then Some (cdn_agent_acl c) else None) /\
       (truthy referer_acl = false ->
          header_of rq "X-Referrer-ACL"
          = if truthy (cdn_referer_acl c) then Some (cdn_referer_acl c) else None)) /\
  (forall c' w',
     make_public ttl user_agent_acl referer_acl (c, w) = (Ok tt, (c', w')) ->
     (truthy user_agent_acl = false -> cdn_agent_acl c' = cdn_agent_acl c) /\
     (truthy referer_acl = false -> cdn_referer_acl c' = cdn_referer_acl c)) /\
  (forall r c' w',
     make_public ttl user_agent_acl referer_acl (c, w) = (r, (c', w')) ->
     (truthy (cdn_agent_acl c) = true -> truthy (cdn_agent_acl c') = true) /\
     (truthy (cdn_referer_acl c) = true -> truthy (cdn_referer_acl c') = true)).
Proof.
  intros Hu. split; [|split; [|split; [|split]]].
  - intros Ha. apply make_public_update_falsy; [assumption| |reflexivity].
    now rewrite (or_falsy _ _ Ha).
  - intros Hb. apply make_public_update_falsy; [assumption|reflexivity|].
    now rewrite (or_falsy _ _ Hb).
  - intros k Hc Hk Hn.
    destruct (make_public_outcome c w k ttl user_agent_acl referer_acl Hc Hk Hn)
      as (rq & _ & Hm & _ & _ & _ & H3 & H4 & Hout).
    cbn zeta in *. rewrite Hu in *. exists rq. repeat split.
    + destruct Hout as [(e & _ & ->)|[(r & _ & _ & ->)|(r & uri & _ & _ & -> & _)]];
        reflexivity.
    + assumption.
    + intros Ha. now rewrite (or_falsy _ _ Ha) in H3.
    + intros Hb. now rewrite (or_falsy _ _ Hb) in H4.
  - intros c' w' Hrun.
    destruct (make_public_update_fields _ _ _ _ _ _ _ _ Hu Hrun)
      as [[_ Hne]|(_ & Ha & Hb)]; [now contradiction Hne|].
    split; intros Hf; [rewrite Ha | rewrite Hb]; now apply or_falsy.
  - intros r c' w' Hrun.
    destruct (make_public_update_fields _ _ _ _ _ _ _ _ Hu Hrun)
      as [[-> _]|(_ & Ha & Hb)]; [now split|].
    rewrite Ha, Hb. unfold or_.
    split; intros Hf; [destruct (truthy user_agent_acl) eqn:E
                      | destruct (truthy referer_acl) eqn:E]; assumption.
Qed.

Lemma make_public_update_keeps_acl_witness :
  make_public (VInt 3600) (VStr "") VNone (published (service true created), [])
  = make_public (VInt 3600) VNone VNone (published (service true created), []).
Proof.
  apply (make_public_update_keeps_acl (published (service true created)) []
           (VInt 3600) (VStr "") VNone); reflexivity.
Defined.

Lemma is_public_run (c : t) (w : list event) (k : Connection) :
  conn c = OConnection k ->
  is_public (c, w)
  = if cdn_enabled k then (Ok (is_not_none (cdn_uri c)), (c, w))
    else (Raise CDNNotEnabled, (c, w)).
Proof.
  intros Hc. unfold is_public. run. rewrite Hc. cbn.
  now destruct (cdn_enabled k).
Qed.

(** C2. After a successful [make_public(ttl=3600)] the cached lifetime is
    3600.  The call has sent one request and received a 2xx response to
    it; [is_public] is then true exactly when the URI was cached before
    the call or that response carries a URI header, and so it is true
    under either proviso. *)
Theorem make_public_sets_ttl (c : t) (w : list event) (k : Connection)
    (user_agent_acl referer_acl : value) (c' : t) (w' : list event) :
  conn c = OConnection k ->
  make_public (VInt 3600) user_agent_acl referer_acl (c, w) = (Ok tt, (c', w')) ->
  cdn_ttl c' = VInt 3600 /\
  exists rq r,
    w' = w ++ [Sent rq] /\ answer k w rq = Ok r /\ 200 <= status r < 300 /\
    is_public (c', w')
    = (Ok (is_not_none (cdn_uri c) || has_header "x-cdn-uri" r), (c', w')) /\
    (is_not_none (cdn_uri c) = true \/ has_header "x-cdn-uri" r = true ->
     is_public (c', w') = (Ok true, (c', w'))).
Proof.
  intros Hc Hrun.
  destruct (guards_cases c) as [(k0 & Hc0 & Hk & Hn)|Hstop].
  - assert (k0 = k) as -> by congruence.
    destruct (make_public_outcome c w k (VInt 3600) user_agent_acl referer_acl Hc Hk Hn)
      as (rq & _ & _ & _ & _ & _ & _ & _ & Hout).
    cbn zeta in Hout.
    destruct Hout as [(e & _ & E)|[(r0 & _ & _ & E)|(r0 & uri & Ha & Hs & E & Hp & Hq)]];
      rewrite E in Hrun; try discriminate Hrun.
    injection Hrun as <- <-. split; [reflexivity|].
    exists rq, r0.
    assert (Hpub : is_public
                     (set_cdn_uri uri
                        (set_cdn_referer_acl
                           (if truthy (cdn_uri c)
                            then or_ referer_acl (cdn_referer_acl c) else referer_acl)
                           (set_cdn_agent_acl
                              (if truthy (cdn_uri c)
                               then or_ user_agent_acl (cdn_agent_acl c)
                               else user_agent_acl)
                              (set_cdn_ttl (VInt 3600) c))), w ++ [Sent rq])
                   = (Ok (is_not_none (cdn_uri c) || has_header "x-cdn-uri" r0),
                      (set_cdn_uri uri
                        (set_cdn_referer_acl
                           (if truthy (cdn_uri c)
                            then or_ referer_acl (cdn_referer_acl c) else referer_acl)
                           (set_cdn_agent_acl
                              (if truthy (cdn_uri c)
                               then or_ user_agent_acl (cdn_agent_acl c)
                               else user_agent_acl)
                              (set_cdn_ttl (VInt 3600) c))), w ++ [Sent rq]))).
    { rewrite (is_public_run _ _ k) by exact Hc. rewrite Hk. cbn.
      destruct (has_header "x-cdn-uri" r0) eqn:Hh.
      - rewrite (Hp eq_refl). now rewrite orb_true_r.
      - rewrite (Hq eq_refl). now rewrite orb_false_r. }
    split; [reflexivity|]. split; [exact Ha|].
    split; [now apply status_in_2xx_spec|]. split; [exact Hpub|].
    intros Hsrc. rewrite Hpub.
    destruct Hsrc as [-> | ->]; [reflexivity | now rewrite orb_true_r].
  - exfalso. revert Hrun. unfold make_public. run.
    destruct Hstop as [Hn|Hg].
    + now rewrite Hn.
    + destruct (truthy (name c)); [|discriminate]. cbn. rewrite Hc in *. cbn in *.
      destruct (cdn_enabled k); [congruence | discriminate].
Qed.

Lemma make_public_sets_ttl_witness :
  let out := make_public (VInt 3600) VNone VNone (photos (service true created), []) in
  cdn_ttl (self_of out) = VInt 3600 /\ is_public (snd out) = (Ok true, snd out).
Proof.
  destruct (make_public_sets_ttl (photos (service true created)) []
              (service true created) VNone VNone _ _ eq_refl eq_refl)
    as (Httl & rq & r & Hw & Ha & _ & _ & Hpub).
  split; [exact Httl|]. apply Hpub. right.
  injection Ha as <-. reflexivity.
Defined.

(** The statement of C2 without the proviso fails: on a container that
    was not published, an answer of success that names no URI lets
    [make_public] return while [is_public] stays false. *)
Lemma make_public_may_leave_private :
  ~ publishes (photos (service true accepted_bare)) [] VNone VNone.
Proof.
  intros H. destruct (H _ _ eq_refl) as [_ Hp]. discriminate Hp.
Qed.

(** C3. On a connection without the CDN, [is_public] raises the
    CDN-not-enabled error; [make_public] and [make_private] raise it when
    the container has a non-empty name, and the naming error of their
    name guard when the name is empty or unset.  In every case the
    container and the trace are left as they were: nothing is sent. *)
Theorem cdn_disabled_raises (c : t) (w : list event) (k : Connection)
    (ttl user_agent_acl referer_acl : value) :
  conn c = OConnection k -> cdn_enabled k = false ->
  is_public (c, w) = (Raise CDNNotEnabled, (c, w)) /\
  make_public ttl user_agent_acl referer_acl (c, w)
  = (Raise (if truthy (name c) then CDNNotEnabled else InvalidContainerName (name c)),
     (c, w)) /\
  make_private (c, w)
  = (Raise (if truthy (name c) then CDNNotEnabled else InvalidContainerName (name c)),
     (c, w)).
Proof.
  intros Hc Hk. unfold is_public, make_public, make_private. run.
  rewrite Hc. cbn. rewrite Hk. cbn.
  destruct (truthy (name c)); cbn; rewrite ?Hc; cbn; rewrite ?Hk; now cbn.
Qed.

Lemma cdn_disabled_raises_witness :
  make_public (VInt 3600) VNone VNone (photos (service false created), [])
  = (Raise CDNNotEnabled, (photos (service false created), [])).
Proof.
  apply (cdn_disabled_raises (photos (service false created)) []
           (service false created) (VInt 3600) VNone VNone); reflexivity.
Defined.

Example unnamed_is_built :
  __init__ (OConnection (service false created)) VNone VNone VNone []
  = (Ok (unnamed (service false created)), []).
Proof. reflexivity. Qed.

(** The statement of C3 for every container fails on one without a name,
    which a connection without the CDN lets construction build: the name
    guard of [make_public] raises the naming error before the capability
    check is reached. *)
Lemma unnamed_stops_at_name_guard :
  ~ stops_at_cdn_check (unnamed (service false created)) [].
Proof.
  intros [H _]. specialize (H (VInt 3600) VNone VNone). discriminate H.
Qed.

(** The statement of C6 fails where the connection has no CDN: the
    empty name is accepted. *)
Lemma init_accepts_empty_name :
  ~ validates_name (OConnection (service false created)) (VStr "") VNone VNone [].
Proof.
  intros [H _]. destruct (H _ _ eq_refl) as [Ht _]. discriminate Ht.
Qed.

Lemma init_checks_name_witness :
  __init__ (OConnection (service true created)) (VStr "") VNone VNone []
  = (Raise (InvalidContainerName (VStr "")), []).
Proof.
  exact (proj2 (proj2 (init_checks_name (OConnection (service true created))
                         (VStr "") VNone VNone []))
           (service true created) eq_refl eq_refl).
Defined.

(** C8. [make_private] assigns nothing: when it returns, the container is
    the one it was called on, and so the cached URI and lifetime are the
    ones from before the call. *)
Theorem make_private_keeps_cache (c c' : t) (w w' : list event) :
  make_private (c, w) = (Ok tt, (c', w')) ->
  cdn_uri c' = cdn_uri c /\ cdn_ttl c' = cdn_ttl c.
Proof.
  unfold make_private. run.
  destruct (truthy (name c)); [|discriminate]. cbn.
  destruct (conn c) as [k| |]; cbn; try discriminate.
  destruct (cdn_enabled k); [|discriminate]. cbn.
  match goal with |- context [answer k w ?rq] => destruct (answer k w rq) as [r|e] end;
    [|discriminate].
  destruct (status_lt_200_or_ge_300 (status r)); [discriminate|].
  cbn. intros H. injection H as <- _. now split.
Qed.

Lemma make_private_keeps_cache_witness :
  cdn_uri (published (service true accepted_bare)) = VStr "http://cdn.example.com/photos" /\
  cdn_ttl (published (service true accepted_bare)) = VInt 86400.
Proof.
  apply (make_private_keeps_cache (published (service true accepted_bare)) _ []
           [Sent {| rq_endpoint := CDN; rq_method := "POST";
                    rq_path := [VStr "photos"]; rq_parms := None;
                    rq_hdrs := Some (<["X-CDN-Enabled" := VStr "False"]> ∅) |}]).
  reflexivity.
Defined.

(** ** Answers that are no success *)

Lemma not_2xx (st : Z) : ~ (200 <= st < 300) -> status_in_2xx st = false.
Proof.
  intros H. destruct (status_in_2xx st) eqn:E; [|reflexivity].
  now apply status_in_2xx_spec in E.
Qed.

(** C4. A response outside the 2xx range.  Once past their guards,
    [make_public], [make_private], [list_objects], [get_objects] and
    [delete_object] send their request, and when the answer to that
    request is a response whose status is outside the 2xx range they raise
    the response error that carries the status and the reason of that
    response; on such a response to its request [_fetch_cdn_data] returns
    without an error and leaves every field of the container as it was. *)
Theorem non_success_raises (c : t) (w : list event) (k : Connection)
    (ttl user_agent_acl referer_acl object_name : value)
    (parms : gmap string value) :
  conn c = OConnection k -> truthy (name c) = true ->
  (cdn_enabled k = true ->
     raises_on_failure k w (make_public ttl user_agent_acl referer_acl (c, w)) /\
     raises_on_failure k w (make_private (c, w))) /\
  raises_on_failure k w (list_objects parms (c, w)) /\
  raises_on_failure k w (get_objects parms (c, w)) /\
  (truthy object_name = true ->
     raises_on_failure k w (delete_object (Name object_name) (c, w)) /\
     raises_on_failure k w
       (delete_object (Handle {| ob_name := object_name |}) (c, w))) /\
  (forall r, answer k w (head_request (name c)) = Ok r ->
     ~ (200 <= status r < 300) ->
     _fetch_cdn_data (c, w) = (Ok tt, (c, w ++ [Sent (head_request (name c))]))).
Proof.
  intros Hc Hn.
  assert (Hlist : forall rq r, answer k w rq = Ok r ->
            status_lt_200_or_gt_299 (status r) = false ->
            forall r', Ok r = Ok r' -> ~ (200 <= status r' < 300) -> False).
  { intros rq r _ Hs r' E Hst. injection E as <-.
    rewrite status_gt_299_spec, (not_2xx _ Hst) in Hs. discriminate Hs. }
  split; [|split; [|split; [|split]]].
  - intros Hk. split.
    + destruct (make_public_outcome c w k ttl user_agent_acl referer_acl Hc Hk Hn)
        as (rq & _ & _ & _ & _ & _ & _ & _ & Hout).
      exists rq, [].
      destruct Hout as [(e & E & ->)|[(r0 & E & _ & ->)|(r0 & uri & E & Hs0 & -> & _)]];
        (split; [reflexivity|]); intros r Ha Hst; rewrite E in Ha.
      * discriminate Ha.
      * now injection Ha as <-.
      * injection Ha as <-. rewrite (not_2xx _ Hst) in Hs0. discriminate Hs0.
    + unfold make_private. run. rewrite Hn. cbn. rewrite Hc. cbn. rewrite Hk. cbn.
      match goal with |- context [answer k w ?rq] =>
        exists rq, []; destruct (answer k w rq) as [r0|e] eqn:E; cbn end.
      * rewrite status_ge_300_spec.
        destruct (status_in_2xx (status r0)) eqn:Hs0; cbn;
          (split; [reflexivity|]); intros r Ha Hst; injection Ha as <-.
        -- rewrite (not_2xx _ Hst) in Hs0. discriminate Hs0.
        -- reflexivity.
      * split; [reflexivity|]. intros r Ha. discriminate Ha.
  - unfold list_objects. run. rewrite Hn. cbn. rewrite Hc. cbn.
    match goal with |- context [answer k w ?rq] =>
      exists rq; destruct (answer k w rq) as [r0|e] eqn:E; cbn end.
    + exists [BodyRead r0].
      destruct (status_lt_200_or_gt_299 (status r0)) eqn:Hs0; cbn;
        (split; [unfold trace_of; cbn; now rewrite <- app_assoc|]);
        intros r Ha Hst.
      * now injection Ha as <-.
      * exfalso. eapply Hlist; eassumption.
    + exists []. split; [reflexivity|]. intros r Ha. discriminate Ha.
  - unfold get_objects, list_objects. run. rewrite Hn. cbn. rewrite ?Hn. cbn.
    rewrite Hc. cbn.
    match goal with |- context [answer k w ?rq] =>
      exists rq; destruct (answer k w rq) as [r0|e] eqn:E; cbn end.
    + exists [BodyRead r0].
      destruct (status_lt_200_or_gt_299 (status r0)) eqn:Hs0; cbn;
        (split; [unfold trace_of; cbn; now rewrite <- app_assoc|]);
        intros r Ha Hst.
      * now injection Ha as <-.
      * exfalso. eapply Hlist; eassumption.
    + exists []. split; [reflexivity|]. intros r Ha. discriminate Ha.
  - intros Ho. split; unfold delete_object; run; rewrite Hn; cbn; rewrite Ho; cbn;
      rewrite Hc; cbn;
      match goal with |- context [answer k w ?rq] =>
        exists rq; destruct (answer k w rq) as [r0|e] eqn:E; cbn end;
      try (exists []; split; [reflexivity|]; intros r Ha; discriminate Ha);
      exists [BodyRead r0];
      destruct (status_lt_200_or_gt_299 (status r0)) eqn:Hs0; cbn;
        (split; [unfold trace_of; cbn; now rewrite <- app_assoc|]);
        intros r Ha Hst;
        first [now injection Ha as <- | exfalso; eapply Hlist; eassumption].
  - intros r Ha Hst. unfold _fetch_cdn_data. run. rewrite Hn. cbn. rewrite Hc. cbn.
    fold (head_request (name c)). rewrite Ha. cbn. now rewrite (not_2xx _ Hst).
Qed.

Lemma non_success_raises_witness :
  raises_on_failure (service true not_found) []
    (get_objects ∅ (photos (service true not_found), [])).
Proof.
  apply (non_success_raises (photos (service true not_found)) []
           (service true not_found) (VInt 3600) VNone VNone (VStr "cat.jpg") ∅
           eq_refl eq_refl).
Defined.

Example delete_object_not_found :
  delete_object (Name (VStr "cat.jpg"))
    (photos {| cdn_enabled := false;
               answer := fun _ rq =>
                 if String.eqb (rq_method rq) "DELETE" then Ok not_found
                 else Raise (TransportError "unreachable") |}, [])
  = (Raise (ResponseError 404 "Not Found"),
     (photos {| cdn_enabled := false;
                answer := fun _ rq =>
                  if String.eqb (rq_method rq) "DELETE" then Ok not_found
                  else Raise (TransportError "unreachable") |},
      [Sent {| rq_endpoint := Storage; rq_method := "DELETE";
               rq_path := [VStr "photos"; VStr "cat.jpg"]; rq_parms := None;
               rq_hdrs := None |};
       BodyRead not_found])).
Proof. reflexivity. Qed.

(** ** Response bodies *)

(** [delete_object] reads the body of the answer on both of its paths. *)
Lemma delete_object_drains (c : t) (w : list event) (k : Connection)
    (object_name : value) :
  conn c = OConnection k -> truthy (name c) = true -> truthy object_name = true ->
  forall r,
    answer k w {| rq_endpoint := Storage; rq_method := "DELETE";
                  rq_path := [name c; object_name]; rq_parms := None;
                  rq_hdrs := None |} = Ok r ->
    reads (trace_of (delete_object (Name object_name) (c, w))) = reads w ++ [r].
Proof.
  intros Hc Hn Ho r Ha. unfold delete_object. run.
  rewrite Hn. cbn. rewrite Ho. cbn. rewrite Hc. cbn. rewrite Ha. cbn.
  unfold reads, trace_of.
  destruct (status_lt_200_or_gt_299 (status r)); cbn;
    rewrite !omap_app; cbn; now rewrite app_nil_r.
Qed.

(** The CDN methods read no body, whatever they are called on and
    however the call ends. *)
Lemma cdn_methods_never_read (c : t) (w : list event)
    (ttl user_agent_acl referer_acl : value) :
  reads (trace_of (make_public ttl user_agent_acl referer_acl (c, w))) = reads w /\
  reads (trace_of (make_private (c, w))) = reads w.
Proof.
  split.
  - destruct (guards_cases c) as [(k & Hc & Hk & Hn)|Hstop].
    + destruct (make_public_outcome c w k ttl user_agent_acl referer_acl Hc Hk Hn)
        as (rq & _ & _ & _ & _ & _ & _ & _ & Hout).
      destruct Hout as [(e & _ & ->)|[(r & _ & _ & ->)|(r & uri & _ & _ & -> & _)]];
        unfold reads, trace_of; cbn; rewrite omap_app; cbn; apply app_nil_r.
    + unfold trace_of.
      now rewrite (make_public_stopped c w ttl user_agent_acl referer_acl Hstop).
  - unfold make_private. run.
    destruct (truthy (name c)); [|reflexivity]. cbn.
    destruct (conn c) as [k| |]; cbn; try reflexivity.
    destruct (cdn_enabled k); [|reflexivity]. cbn.
    match goal with |- context [answer k w ?rq] => destruct (answer k w rq) as [r|e] end;
      [destruct (status_lt_200_or_ge_300 (status r))|];
      unfold reads, trace_of; cbn; rewrite omap_app; cbn; apply app_nil_r.
Qed.

(** C7, at a call of [make_public] that the service answers with 201: the
    method returns with the answer in hand and the trace holds the request
    alone; the body of the answer was not read. *)
Theorem make_public_leaves_body_unread :
  make_public (VInt 3600) VNone VNone (photos (service true created), [])
  = (Ok tt,
     (set_cdn_uri (VStr "http://cdn.example.com/photos")
        (set_cdn_ttl (VInt 3600) (photos (service true created))),
      [Sent {| rq_endpoint := CDN; rq_method := "PUT"; rq_path := [VStr "photos"];
               rq_parms := None;
               rq_hdrs := Some (<["X-TTL" := VStr "3600"]>
                                  (<["X-CDN-Enabled" := VStr "True"]> ∅)) |}])) /\
  reads (trace_of (make_public (VInt 3600) VNone VNone
                     (photos (service true created), []))) = [] /\
  reads (trace_of (make_private (published (service true accepted_bare), []))) = [].
Proof. repeat split. Qed.

Example list_objects_lines :
  outcome (list_objects ∅
             (photos (service false
                        {| status := 200; reason := "OK"; getheaders := [];
                           body := "a" +:+ String "010" ("b" +:+ String "010"
                                     ("c" +:+ String "010" "")) |}), []))
  = Ok ["a"; "b"; "c"].
Proof. reflexivity. Qed.

(** ** Results *)

Example getitem_builds :
  ContainerResults.__getitem__
    (ContainerResults.__init__ (OConnection (service false created))
       [VStr "a"; VStr "b"]) 1 []
  = (Ok (set__name (VStr "b") (unnamed (service false created))), []).
Proof. reflexivity. Qed.

(** A slice that is not empty raises: every container of it is built with
    the list of names in the place of the connection, and a list has no
    [cdn_enabled]. *)
Lemma getslice_raises (self : ContainerResults.t) (i j : Z) (w : list event)
    (nm : value) (rest : list value) :
  slice (ContainerResults._containers self) i j = nm :: rest ->
  exists e, ContainerResults.__getslice__ self i j w = (Raise e, w) /\
            (has_slash nm = false -> e = AttributeError "cdn_enabled").
Proof.
  intros Hs. unfold ContainerResults.__getslice__. rewrite Hs.
  cbn [comprehension]. run.
  destruct (has_slash nm) eqn:E.
  - destruct nm as [| | |s]; try discriminate E.
    destruct (char_in_split _ _ E) as (s1 & s2 & ->).
    change (String "/" s2) with ("/" +:+ s2).
    rewrite init_rejects_separator_aux. eexists. split; [reflexivity | discriminate].
  - rewrite (init_run _ _ _ _ _ E). eexists. split; reflexivity.
Qed.

(** C9, at the slice [0:2] of the results over the names [a] and [b]: the
    access raises the attribute error in place of returning two
    containers, while the index access beside it builds its container
    with the stored connection. *)
Theorem getslice_fails_on_names :
  ContainerResults.__getslice__
    (ContainerResults.__init__ (OConnection (service false created))
       [VStr "a"; VStr "b"]) 0 2 []
  = (Raise (AttributeError "cdn_enabled"), []).
Proof. reflexivity. Qed.

(** * Further properties of the module *)

(** ** How the methods run once past their guards *)

Lemma make_private_run (c : t) (w : list event) (k : Connection) :
  conn c = OConnection k -> cdn_enabled k = true -> truthy (name c) = true ->
  let rq := {| rq_endpoint := CDN; rq_method := "POST"; rq_path := [name c];
               rq_parms := None;
               rq_hdrs := Some (<["X-CDN-Enabled" := VStr "False"]> ∅) |} in
  make_private (c, w)
  = (match answer k w rq with
     | Ok r => if status_in_2xx (status r) then Ok tt
               else Raise (ResponseError (status r) (reason r))
     | Raise e => Raise e
     end, (c, w ++ [Sent rq])).
Proof.
  intros Hc Hk Hn. unfold make_private. run. rewrite Hn. cbn. rewrite Hc. cbn.
  rewrite Hk. cbn.
  match goal with |- context [answer k w ?rq] => destruct (answer k w rq) as [r|e] end;
    cbn; [|reflexivity].
  rewrite status_ge_300_spec. now destruct (status_in_2xx (status r)).
Qed.

Lemma list_objects_run (c : t) (w : list event) (k : Connection)
    (parms : gmap string value) :
  conn c = OConnection k -> truthy (name c) = true ->
  let rq := {| rq_endpoint := Storage; rq_method := "GET"; rq_path := [name c];
               rq_parms := Some parms; rq_hdrs := None |} in
  list_objects parms (c, w)
  = match answer k w rq with
    | Ok r => (if status_in_2xx (status r) then Ok (splitlines (body r))
               else Raise (ResponseError (status r) (reason r)),
               (c, w ++ [Sent rq; BodyRead r]))
    | Raise e => (Raise e, (c, w ++ [Sent rq]))
    end.
Proof.
  intros Hc Hn. unfold list_objects. run. rewrite Hn. cbn. rewrite Hc. cbn.
  match goal with |- context [answer k w ?rq] => destruct (answer k w rq) as [r|e] end;
    cbn; [|reflexivity].
  rewrite status_gt_299_spec.
  destruct (status_in_2xx (status r)); cbn; now rewrite <- app_assoc.
Qed.

Lemma delete_object_run (c : t) (w : list event) (k : Connection)
    (target : name_or_handle) (v : value) :
  conn c = OConnection k -> truthy (name c) = true ->
  target = Name v \/ target = Handle {| ob_name := v |} ->
  let rq := {| rq_endpoint := Storage; rq_method := "DELETE";
               rq_path := [name c; v]; rq_parms := None; rq_hdrs := None |} in
  delete_object target (c, w)
  = if truthy v then
      match answer k w rq with
      | Ok r => (if status_in_2xx (status r) then Ok tt
                 else Raise (ResponseError (status r) (reason r)),
                 (c, w ++ [Sent rq; BodyRead r]))
      | Raise e => (Raise e, (c, w ++ [Sent rq]))
      end
    else (Raise (InvalidObjectName v), (c, w)).
Proof.
  intros Hc Hn Ht.
  assert (E : delete_object target = delete_object (Name v))
    by (destruct Ht as [->| ->]; reflexivity).
  rewrite E. unfold delete_object. run. rewrite Hn. cbn.
  destruct (truthy v); cbn; [|reflexivity]. rewrite Hc. cbn.
  match goal with |- context [answer k w ?rq] => destruct (answer k w rq) as [r|e] end;
    cbn; [|reflexivity].
  rewrite status_gt_299_spec.
  destruct (status_in_2xx (status r)); cbn; now rewrite <- app_assoc.
Qed.

(** A method that is stopped by its name guard. *)
Lemma requires_name_stops {A} (f : M St A) (c : t) (w : list event) :
  truthy (name c) = false ->
  requires_name InvalidContainerName f (c, w)
  = (Raise (InvalidContainerName (name c)), (c, w)).
Proof. intros H. run. now rewrite H. Qed.

Lemma requires_name_passes {A} (f : M St A) (c : t) (w : list event) :
  truthy (name c) = true ->
  requires_name InvalidContainerName f (c, w) = f (c, w).
Proof. intros H. run. now rewrite H. Qed.

(** ** What the methods leave alone *)

(** X1. Of the methods of a container only [make_public] and the metadata
    fetch assign fields: [make_private], [is_public], [public_uri],
    [list_objects] and [delete_object] leave the container as it was,
    whatever they are called on and however the call ends. *)
Theorem queries_keep_container (c : t) (w : list event)
    (parms : gmap string value) (target : name_or_handle) :
  self_of (make_private (c, w)) = c /\
  self_of (is_public (c, w)) = c /\
  self_of (public_uri (c, w)) = c /\
  self_of (list_objects parms (c, w)) = c /\
  self_of (delete_object target (c, w)) = c.
Proof.
  assert (Hpub : self_of (is_public (c, w)) = c).
  { unfold is_public. run. destruct (conn c) as [k| |]; cbn; try reflexivity.
    now destruct (cdn_enabled k). }
  repeat split; try exact Hpub.
  - unfold make_private. run.
    destruct (truthy (name c)); [|reflexivity]. cbn.
    destruct (conn c) as [k| |]; cbn; try reflexivity.
    destruct (cdn_enabled k); [|reflexivity]. cbn.
    match goal with |- context [answer k w ?rq] => destruct (answer k w rq) as [r|e] end;
      [destruct (status_lt_200_or_ge_300 (status r))|]; reflexivity.
  - unfold public_uri, is_public. run.
    destruct (truthy (name c)); [|reflexivity]. cbn.
    destruct (conn c) as [k| |]; cbn; try reflexivity.
    destruct (cdn_enabled k); [|reflexivity]. cbn.
    now destruct (is_not_none (cdn_uri c)).
  - unfold list_objects. run.
    destruct (truthy (name c)); [|reflexivity]. cbn.
    destruct (conn c) as [k| |]; cbn; try reflexivity.
    match goal with |- context [answer k w ?rq] => destruct (answer k w rq) as [r|e] end;
      [destruct (status_lt_200_or_gt_299 (status r))|]; reflexivity.
  - unfold delete_object. run.
    destruct (truthy (name c)); [|reflexivity]. cbn.
    destruct (truthy match target with Name v => v | Handle o => ob_name o end);
      [|reflexivity]. cbn.
    destruct (conn c) as [k| |]; cbn; try reflexivity.
    match goal with |- context [answer k w ?rq] => destruct (answer k w rq) as [r|e] end;
      [destruct (status_lt_200_or_gt_299 (status r))|]; reflexivity.
Qed.

(** X2. [make_public] is all or nothing: a call that raises, for whatever
    reason, has assigned no field of the container. *)
Theorem make_public_raises_unchanged (c c' : t) (w w' : list event)
    (ttl user_agent_acl referer_acl : value) (e : exn) :
  make_public ttl user_agent_acl referer_acl (c, w) = (Raise e, (c', w')) ->
  c' = c.
Proof.
  intros Hrun.
  destruct (guards_cases c) as [(k & Hc & Hk & Hn)|Hstop].
  - destruct (make_public_outcome c w k ttl user_agent_acl referer_acl Hc Hk Hn)
      as (rq & _ & _ & _ & _ & _ & _ & _ & Hout).
    destruct Hout as [(e0 & _ & E)|[(r & _ & _ & E)|(r & uri & _ & _ & E & _)]];
      rewrite E in Hrun; congruence.
  - pose proof (make_public_stopped c w ttl user_agent_acl referer_acl Hstop) as E.
    rewrite Hrun in E. cbn in E. congruence.
Qed.

Lemma make_public_raises_unchanged_witness :
  self_of (make_public (VInt 3600) VNone VNone (photos (service true not_found), []))
  = photos (service true not_found).
Proof.
  apply (make_public_raises_unchanged _ _ []
           (trace_of (make_public (VInt 3600) VNone VNone
                        (photos (service true not_found), [])))
           (VInt 3600) VNone VNone (ResponseError 404 "Not Found")).
  reflexivity.
Defined.

(** ** Publication, continued *)

Lemma last_header_snoc (key : string) (hdrs : list (string * string))
    (hdr : string * string) :
  last_header key (hdrs ++ [hdr])
  = if String.eqb (lower (fst hdr)) key then Some (snd hdr)
    else last_header key hdrs.
Proof.
  unfold last_header. rewrite rev_app_distr. cbn.
  now destruct (String.eqb (lower hdr.1) key).
Qed.

Lemma has_header_last (key : string) (r : Response) :
  has_header key r = true <-> last_header key (getheaders r) <> None.
Proof.
  unfold has_header. induction (getheaders r) as [|hdr hdrs IH] using rev_ind.
  - cbn. split; [discriminate | congruence].
  - rewrite existsb_app, last_header_snoc. cbn. rewrite orb_false_r.
    destruct (String.eqb (lower hdr.1) key).
    + rewrite orb_true_r. split; [discriminate | reflexivity].
    + now rewrite orb_false_r.
Qed.

Lemma for_each_snoc {S A} (l : list A) (x : A) (f : A -> M S unit) (s s' : S) :
  for_each l f s = (Ok tt, s') ->
  for_each (l ++ [x]) f s
  = match f x s' with
    | (Ok _, s'') => (Ok tt, s'')
    | (Raise e, s'') => (Raise e, s'')
    end.
Proof.
  revert s. induction l as [|y l IH]; intros s H.
  - cbn in H. injection H as ->. rewrite app_nil_l, for_each_cons. cbn.
    destruct (f x s') as [[[]|e] s'']; reflexivity.
  - rewrite <- app_comm_cons, for_each_cons. rewrite for_each_cons in H.
    destruct (f y s) as [[[]|e] s1]; [now apply IH | discriminate H].
Qed.

(** The loop of [make_public] leaves the value of the last URI header. *)
Lemma store_uri_last (hdrs : list (string * string)) (c : t) (w : list event) :
  for_each hdrs make_public_hdr (c, w)
  = (Ok tt, (set_cdn_uri (match last_header "x-cdn-uri" hdrs with
                          | Some v => VStr v
                          | None => cdn_uri c
                          end) c, w)).
Proof.
  induction hdrs as [|hdr hdrs IH] using rev_ind.
  - cbn. now destruct c.
  - rewrite (for_each_snoc _ _ _ _ _ IH), last_header_snoc.
    unfold make_public_hdr. run.
    now destruct (String.eqb (lower hdr.1) "x-cdn-uri").
Qed.

Lemma make_public_stores_aux (c c' : t) (w w' : list event) (k : Connection)
    (ttl user_agent_acl referer_acl : value) :
  conn c = OConnection k ->
  make_public ttl user_agent_acl referer_acl (c, w) = (Ok tt, (c', w')) ->
  cdn_ttl c' = ttl /\
  cdn_agent_acl c'
  = (if truthy (cdn_uri c) then or_ user_agent_acl (cdn_agent_acl c)
     else user_agent_acl) /\
  cdn_referer_acl c'
  = (if truthy (cdn_uri c) then or_ referer_acl (cdn_referer_acl c)
     else referer_acl) /\
  (exists rq r, w' = w ++ [Sent rq] /\ answer k w rq = Ok r /\
     status_in_2xx (status r) = true /\
     cdn_uri c' = match last_header "x-cdn-uri" (getheaders r) with
                  | Some v => VStr v
                  | None => cdn_uri c
                  end) /\
  name c' = name c /\ conn c' = conn c /\
  object_count c' = object_count c /\ size_used c' = size_used c.
Proof.
  intros Hc Hrun.
  destruct (guards_cases c) as [(k0 & Hc0 & Hk & Hn)|Hstop].
  - assert (k0 = k) as -> by congruence.
    pose proof (make_public_run c w k ttl user_agent_acl referer_acl Hc Hk Hn) as E.
    cbn zeta in E. rewrite E in Hrun. clear E.
    match type of Hrun with context [answer k w ?rq0] =>
      destruct (answer k w rq0) as [r|e] eqn:Ha; [|discriminate Hrun];
      rewrite status_ge_300_spec in Hrun;
      destruct (status_in_2xx (status r)) eqn:Hs; [|discriminate Hrun];
      cbn in Hrun; rewrite store_uri_last in Hrun; injection Hrun as <- <-;
      repeat split; try reflexivity; exists rq0, r
    end.
    now repeat split.
  - exfalso. pose proof (make_public_stopped c w ttl user_agent_acl referer_acl Hstop) as E.
    revert Hrun. unfold make_public. run.
    destruct Hstop as [Hn|Hg].
    + now rewrite Hn.
    + destruct (truthy (name c)); [|discriminate]. cbn. rewrite Hc in *. cbn in *.
      destruct (cdn_enabled k); [congruence | discriminate].
Qed.

(** X3. What a successful [make_public] stores.  The lifetime is the
    argument; each access-control field is the argument on the create
    path, [None] included, and on the update path the argument if it is
    non-empty and the cached value otherwise; the URI is the value of the
    last [X-CDN-URI] header of the answer, whatever the case of its name,
    and the cached one when the answer has none; the name, the connection
    and the two counts are not touched. *)
Theorem make_public_stores (c c' : t) (w w' : list event) (k : Connection)
    (ttl user_agent_acl referer_acl : value) :
  conn c = OConnection k ->
  make_public ttl user_agent_acl referer_acl (c, w) = (Ok tt, (c', w')) ->
  cdn_ttl c' = ttl /\
  cdn_agent_acl c'
  = (if truthy (cdn_uri c) then or_ user_agent_acl (cdn_agent_acl c)
     else user_agent_acl) /\
  cdn_referer_acl c'
  = (if truthy (cdn_uri c) then or_ referer_acl (cdn_referer_acl c)
     else referer_acl) /\
  (exists rq r, w' = w ++ [Sent rq] /\ answer k w rq = Ok r /\
     status_in_2xx (status r) = true /\
     cdn_uri c' = match last_header "x-cdn-uri" (getheaders r) with
                  | Some v => VStr v
                  | None => cdn_uri c
                  end) /\
  name c' = name c /\ conn c' = conn c /\
  object_count c' = object_count c /\ size_used c' = size_used c.
Proof. apply make_public_stores_aux. Qed.

Lemma make_public_stores_witness :
  cdn_agent_acl (self_of (make_public (VInt 3600) VNone VNone
                            (stale (service true accepted_bare), [])))
  = VNone.
Proof.
  apply (make_public_stores (stale (service true accepted_bare)) _ []
           (trace_of (make_public (VInt 3600) VNone VNone
                        (stale (service true accepted_bare), [])))
           (service true accepted_bare) (VInt 3600) VNone VNone eq_refl eq_refl).
Defined.

(** X4. Publishing and then asking.  After a successful [make_public]
    whose answer carries a URI header, [public_uri] returns the value of
    the last such header and [is_public] is true, both without a request;
    and a further [make_public] is an update ([POST]) exactly when that
    value is not empty. *)
Theorem publish_then_ask (c c' : t) (w w' : list event) (k : Connection)
    (ttl user_agent_acl referer_acl : value) (rq : Request) (r : Response)
    (uri : string) :
  conn c = OConnection k ->
  make_public ttl user_agent_acl referer_acl (c, w) = (Ok tt, (c', w ++ [Sent rq])) ->
  answer k w rq = Ok r ->
  last_header "x-cdn-uri" (getheaders r) = Some uri ->
  public_uri (c', w') = (Ok (VStr uri), (c', w')) /\
  is_public (c', w') = (Ok true, (c', w')) /\
  forall ttl' agent' referer',
    exists rq',
      trace_of (make_public ttl' agent' referer' (c', w')) = w' ++ [Sent rq'] /\
      rq_method rq' = (if String.eqb uri "" then "PUT" else "POST").
Proof.
  intros Hc Hrun Ha Hl.
  destruct (make_public_stores_aux _ _ _ _ _ _ _ _ Hc Hrun)
    as (_ & _ & _ & (rq0 & r0 & Hw & Ha0 & _ & Hu) & Hn & Hc' & _).
  apply app_inv_head in Hw. injection Hw as <-.
  assert (r0 = r) as -> by congruence. rewrite Hl in Hu.
  assert (Hg : cdn_enabled k = true /\ truthy (name c) = true).
  { destruct (guards_cases c) as [(k0 & Hc0 & Hk & Hn0)|Hstop].
    - split; congruence.
    - exfalso. revert Hrun. unfold make_public. run.
      destruct Hstop as [Hn0|Hg].
      + now rewrite Hn0.
      + destruct (truthy (name c)); [|discriminate]. cbn. rewrite Hc in *. cbn in *.
        destruct (cdn_enabled k); [congruence | discriminate]. }
  destruct Hg as [Hk Hn0]. rewrite Hc in Hc'.
  assert (Hp : is_public (c', w') = (Ok true, (c', w'))).
  { rewrite (is_public_run _ _ k Hc'), Hk, Hu. reflexivity. }
  split; [|split; [exact Hp|]].
  - unfold public_uri. rewrite requires_name_passes by (rewrite Hn; exact Hn0).
    change (mbind ?f is_public (c', w')) with
      (match is_public (c', w') with
       | (Ok a, s') => f a s'
       | (Raise e, s') => (Raise e, s')
       end).
    rewrite Hp. cbn. run. now rewrite Hu.
  - intros ttl' agent' referer'.
    assert (Hn' : truthy (name c') = true) by (rewrite Hn; exact Hn0).
    destruct (make_public_outcome c' w' k ttl' agent' referer' Hc' Hk Hn')
      as (rq' & He & Hm & Hpth & H1 & H2 & H3 & H4 & Hout).
    cbn zeta in *. rewrite Hu in Hm. cbn [truthy] in Hm.
    exists rq'. split.
    + destruct Hout as [(e & _ & ->)|[(r1 & _ & _ & ->)|(r1 & u1 & _ & _ & -> & _)]];
        reflexivity.
    + rewrite Hm. now destruct (String.eqb uri "").
Qed.

Lemma publish_then_ask_witness :
  public_uri (self_of (make_public (VInt 3600) VNone VNone
                         (photos (service true created), [])), [])
  = (Ok (VStr "http://cdn.example.com/photos"),
     (self_of (make_public (VInt 3600) VNone VNone
                 (photos (service true created), [])), [])).
Proof.
  apply (publish_then_ask (photos (service true created)) _ [] []
           (service true created) (VInt 3600) VNone VNone
           {| rq_endpoint := CDN; rq_method := "PUT"; rq_path := [VStr "photos"];
              rq_parms := None;
              rq_hdrs := Some (<["X-TTL" := VStr "3600"]>
                                 (<["X-CDN-Enabled" := VStr "True"]> ∅)) |}
           created "http://cdn.example.com/photos"); reflexivity.
Defined.

Lemma public_uri_run (c : t) (w : list event) (k : Connection) :
  conn c = OConnection k -> cdn_enabled k = true -> truthy (name c) = true ->
  public_uri (c, w)
  = (if is_not_none (cdn_uri c) then Ok (cdn_uri c) else Raise ContainerNotPublic,
     (c, w)).
Proof.
  intros Hc Hk Hn. unfold public_uri, is_public. run. rewrite Hn. cbn.
  rewrite Hc. cbn. rewrite Hk. cbn. now destruct (is_not_none (cdn_uri c)).
Qed.

(** X5. Unpublishing.  A guarded [make_private] sends one request, a
    [POST] to the CDN endpoint under the container's name whose only
    header is [X-CDN-Enabled: False]; and when it has returned, the
    container still counts as public: [is_public] and [public_uri] answer
    as they did before the call. *)
Theorem make_private_stays_public (c c' : t) (w w' : list event)
    (k : Connection) :
  conn c = OConnection k ->
  make_private (c, w) = (Ok tt, (c', w')) ->
  w' = w ++ [Sent {| rq_endpoint := CDN; rq_method := "POST";
                     rq_path := [name c]; rq_parms := None;
                     rq_hdrs := Some {["X-CDN-Enabled" := VStr "False"]} |}] /\
  outcome (is_public (c', w')) = outcome (is_public (c, w)) /\
  outcome (public_uri (c', w')) = outcome (public_uri (c, w)).
Proof.
  intros Hc Hrun.
  assert (Hg : cdn_enabled k = true /\ truthy (name c) = true).
  { revert Hrun. unfold make_private. run.
    destruct (truthy (name c)); [|discriminate]. cbn. rewrite Hc. cbn.
    destruct (cdn_enabled k); [now split | discriminate]. }
  destruct Hg as [Hk Hn].
  rewrite (make_private_run c w k Hc Hk Hn) in Hrun. cbn zeta in Hrun.
  injection Hrun as _ <- <-. split; [reflexivity|].
  rewrite !(is_public_run c _ k Hc), !(public_uri_run c _ k Hc Hk Hn), Hk.
  split; reflexivity.
Qed.

Lemma make_private_stays_public_witness :
  outcome (is_public (self_of (make_private (published (service true accepted_bare), [])),
                      trace_of (make_private (published (service true accepted_bare), []))))
  = Ok true.
Proof.
  apply (make_private_stays_public (published (service true accepted_bare)) _ [] _
           (service true accepted_bare) eq_refl eq_refl).
Defined.

(** X6. [public_uri] and [is_public] work on the cache alone: neither
    sends anything, whatever it is called on.  On a named container with
    the CDN enabled [public_uri] returns the cached URI, the empty string
    included, and raises the not-public error exactly when the cache holds
    [None]. *)
Theorem public_uri_reads_cache (c : t) (w : list event) :
  trace_of (is_public (c, w)) = w /\
  trace_of (public_uri (c, w)) = w /\
  (forall k, conn c = OConnection k -> cdn_enabled k = true ->
     truthy (name c) = true ->
     outcome (public_uri (c, w))
     = match cdn_uri c with
       | VNone => Raise ContainerNotPublic
       | uri => Ok uri
       end).
Proof.
  split; [|split].
  - unfold is_public. run. destruct (conn c) as [k| |]; cbn; try reflexivity.
    now destruct (cdn_enabled k).
  - unfold public_uri, is_public. run.
    destruct (truthy (name c)); [|reflexivity]. cbn.
    destruct (conn c) as [k| |]; cbn; try reflexivity.
    destruct (cdn_enabled k); [|reflexivity]. cbn.
    now destruct (is_not_none (cdn_uri c)).
  - intros k Hc Hk Hn. rewrite (public_uri_run c w k Hc Hk Hn).
    now destruct (cdn_uri c).
Qed.

Lemma public_uri_reads_cache_witness :
  outcome (public_uri (stale (service true created), [])) = Ok (VStr "").
Proof.
  exact (proj2 (proj2 (public_uri_reads_cache (stale (service true created)) []))
           (service true created) eq_refl eq_refl eq_refl).
Defined.

(** ** Objects *)

Lemma splitlines_line (nm rest : string) (cur : list ascii) :
  one_line nm ->
  splitlines_aux (nm +:+ String "010" rest) cur
  = string_of_list_ascii (rev cur ++ list_ascii_of_string nm)
    :: splitlines_aux rest [].
Proof.
  revert cur. induction nm as [|a nm IH]; intros cur [Hlf Hcr].
  - cbn. now rewrite app_nil_r.
  - simpl in Hlf, Hcr. apply orb_false_iff in Hlf as [Ha Hlf].
    apply orb_false_iff in Hcr as [Hb Hcr].
    change (String a nm +:+ String "010" rest)
      with (String a (nm +:+ String "010" rest)).
    cbn [splitlines_aux]. rewrite Ha, Hb.
    rewrite IH by now split. cbn [rev list_ascii_of_string].
    now rewrite <- app_assoc.
Qed.

Lemma splitlines_of_listing (names : list string) :
  Forall one_line names -> splitlines (listing names) = names.
Proof.
  unfold splitlines. induction 1 as [|nm names Hnm _ IH]; [reflexivity|].
  cbn [listing fold_right]. rewrite splitlines_line by exact Hnm.
  cbn [rev app]. rewrite string_of_list_ascii_of_string. f_equal. exact IH.
Qed.

(** X7. Listing.  A guarded [list_objects] sends one [GET] to the storage
    endpoint under the container's name, with the query parameters as
    they were given.  When the answer is a success whose body is a
    sequence of names, each followed by a line feed, the method returns
    those names in their order, having read the body once. *)
Theorem list_objects_names (c : t) (w : list event) (k : Connection)
    (parms : gmap string value) (r : Response) (names : list string) :
  conn c = OConnection k -> truthy (name c) = true ->
  answer k w {| rq_endpoint := Storage; rq_method := "GET"; rq_path := [name c];
                rq_parms := Some parms; rq_hdrs := None |} = Ok r ->
  200 <= status r < 300 ->
  body r = listing names -> Forall one_line names ->
  list_objects parms (c, w)
  = (Ok names,
     (c, w ++ [Sent {| rq_endpoint := Storage; rq_method := "GET";
                       rq_path := [name c]; rq_parms := Some parms;
                       rq_hdrs := None |};
               BodyRead r])).
Proof.
  intros Hc Hn Ha Hs Hb Hl. rewrite (list_objects_run c w k parms Hc Hn).
  cbn zeta. rewrite Ha. apply status_in_2xx_spec in Hs. rewrite Hs, Hb.
  now rewrite splitlines_of_listing.
Qed.

Lemma list_objects_names_witness :
  outcome (list_objects {["limit" := VInt 2]}
             (photos (service false
                        {| status := 200; reason := "OK"; getheaders := [];
                           body := listing ["cat.jpg"; "dog.jpg"] |}), []))
  = Ok ["cat.jpg"; "dog.jpg"].
Proof.
  rewrite (list_objects_names
             (photos (service false
                        {| status := 200; reason := "OK"; getheaders := [];
                           body := listing ["cat.jpg"; "dog.jpg"] |})) []
             (service false
                {| status := 200; reason := "OK"; getheaders := [];
                   body := listing ["cat.jpg"; "dog.jpg"] |})
             {["limit" := VInt 2]} _ ["cat.jpg"; "dog.jpg"]
             eq_refl eq_refl eq_refl).
  - reflexivity.
  - cbn. lia.
  - reflexivity.
  - repeat constructor.
Defined.

(** X8. Deletion.  On a named container [delete_object] takes a name or
    a handle, of which it uses the name.  An empty or unset object name
    raises the invalid-object-name error with nothing sent.  Otherwise the
    method sends one [DELETE] to the storage endpoint under the
    container's and the object's names, reads the body of the answer, and
    returns on a 2xx status and raises the response error on any other. *)
Theorem delete_object_by_name (c : t) (w : list event) (k : Connection)
    (target : name_or_handle) (v : value) :
  conn c = OConnection k -> truthy (name c) = true ->
  target = Name v \/ target = Handle {| ob_name := v |} ->
  (truthy v = false ->
     delete_object target (c, w) = (Raise (InvalidObjectName v), (c, w))) /\
  (truthy v = true ->
     forall r,
       answer k w {| rq_endpoint := Storage; rq_method := "DELETE";
                     rq_path := [name c; v]; rq_parms := None;
                     rq_hdrs := None |} = Ok r ->
       delete_object target (c, w)
       = (if status_in_2xx (status r) then Ok tt
          else Raise (ResponseError (status r) (reason r)),
          (c, w ++ [Sent {| rq_endpoint := Storage; rq_method := "DELETE";
                            rq_path := [name c; v]; rq_parms := None;
                            rq_hdrs := None |};
                    BodyRead r]))).
Proof.
  intros Hc Hn Ht.
  pose proof (delete_object_run c w k target v Hc Hn Ht) as E. cbn zeta in E.
  split; intros Hv; rewrite Hv in E; [exact E|].
  intros r Ha. now rewrite Ha in E.
Qed.

Lemma delete_object_by_name_witness :
  delete_object (Handle {| ob_name := VStr "" |}) (photos (service false created), [])
  = (Raise (InvalidObjectName (VStr "")), (photos (service false created), [])).
Proof.
  apply (delete_object_by_name (photos (service false created)) []
           (service false created) (Handle {| ob_name := VStr "" |}) (VStr "")
           eq_refl eq_refl (or_intror eq_refl)); reflexivity.
Defined.

(** ** The metadata fetch *)

Lemma for_each_app {S A} (l1 l2 : list A) (f : A -> M S unit) (s : S) :
  for_each (l1 ++ l2) f s
  = match for_each l1 f s with
    | (Ok _, s') => for_each l2 f s'
    | (Raise e, s') => (Raise e, s')
    end.
Proof.
  revert s. induction l1 as [|x l1 IH]; intros s; [reflexivity|].
  rewrite <- app_comm_cons, !for_each_cons.
  destruct (f x s) as [[[]|e] s1]; [apply IH | reflexivity].
Qed.

(** One header whose lifetime, if it is one, reads as an integer. *)
Lemma fetch_hdr_stores (hdr : string * string) (c : t) (w : list event) :
  (lower (fst hdr) = "x-ttl" -> Py.int (snd hdr) <> None) ->
  exists c',
    _fetch_cdn_data_hdr hdr (c, w) = (Ok tt, (c', w)) /\
    cdn_uri c' = (if String.eqb (lower (fst hdr)) "x-cdn-uri"
                  then VStr (snd hdr) else cdn_uri c) /\
    cdn_ttl c' = (if String.eqb (lower (fst hdr)) "x-ttl"
                  then default (cdn_ttl c) (VInt <$> Py.int (snd hdr))
                  else cdn_ttl c) /\
    cdn_agent_acl c' = (if String.eqb (lower (fst hdr)) "x-user-agent-acl"
                        then VStr (snd hdr) else cdn_agent_acl c) /\
    cdn_referer_acl c' = (if String.eqb (lower (fst hdr)) "x-referrer-acl"
                          then VStr (snd hdr) else cdn_referer_acl c) /\
    _name c' = _name c /\ conn c' = conn c /\
    object_count c' = object_count c /\ size_used c' = size_used c.
Proof.
  intros Hp. unfold _fetch_cdn_data_hdr. run.
  destruct (String.eqb (lower hdr.1) "x-ttl") eqn:Et.
  - apply String.eqb_eq in Et. specialize (Hp Et).
    destruct (Py.int hdr.2) as [n|]; [|congruence].
    destruct (String.eqb (lower hdr.1) "x-cdn-uri");
    destruct (String.eqb (lower hdr.1) "x-user-agent-acl");
    destruct (String.eqb (lower hdr.1) "x-referrer-acl"); cbn;
    eexists; (split; [reflexivity | now cbn]).
  - destruct (String.eqb (lower hdr.1) "x-cdn-uri");
    destruct (String.eqb (lower hdr.1) "x-user-agent-acl");
    destruct (String.eqb (lower hdr.1) "x-referrer-acl"); cbn;
    eexists; (split; [reflexivity | now cbn]).
Qed.

Lemma ttl_headers_parse_app (l1 l2 : list (string * string)) :
  ttl_headers_parse (l1 ++ l2) <-> ttl_headers_parse l1 /\ ttl_headers_parse l2.
Proof.
  unfold ttl_headers_parse. split.
  - intros H. split; intros hdr Hin; apply H, in_or_app; auto.
  - intros [H1 H2] hdr Hin. apply in_app_or in Hin as [Hin|Hin]; auto.
Qed.

(** The loop over headers that all read well leaves in each field the
    value of the last header of its name. *)
Lemma fetch_loop_stores (hdrs : list (string * string)) (c : t) (w : list event) :
  ttl_headers_parse hdrs ->
  exists c',
    for_each hdrs _fetch_cdn_data_hdr (c, w) = (Ok tt, (c', w)) /\
    cdn_uri c' = default (cdn_uri c) (VStr <$> last_header "x-cdn-uri" hdrs) /\
    cdn_ttl c' = default (cdn_ttl c)
                   (VInt <$> (last_header "x-ttl" hdrs ≫= Py.int)) /\
    cdn_agent_acl c'
    = default (cdn_agent_acl c) (VStr <$> last_header "x-user-agent-acl" hdrs) /\
    cdn_referer_acl c'
    = default (cdn_referer_acl c) (VStr <$> last_header "x-referrer-acl" hdrs) /\
    _name c' = _name c /\ conn c' = conn c /\
    object_count c' = object_count c /\ size_used c' = size_used c.
Proof.
  induction hdrs as [|hdr hdrs IH] using rev_ind; intros Hp.
  - exists c. now repeat split.
  - apply ttl_headers_parse_app in Hp as [Hp Hh].
    destruct (IH Hp) as (c1 & Hl & Hu & Ht & Ha & Hr & Hn & Hc & Ho & Hz).
    destruct (fetch_hdr_stores hdr c1 w) as (c' & Hs & Hu' & Ht' & Ha' & Hr' & Hn' & Hc' & Ho' & Hz').
    { intros E. apply (Hh hdr); [now left | exact E]. }
    exists c'. rewrite (for_each_snoc _ _ _ _ _ Hl), Hs, !last_header_snoc.
    split; [reflexivity|].
    rewrite Hu', Ht', Ha', Hr', Hn', Hc', Ho', Hz', Hu, Ht, Ha, Hr.
    repeat split; try assumption.
    + now destruct (String.eqb (lower hdr.1) "x-cdn-uri").
    + destruct (String.eqb (lower hdr.1) "x-ttl") eqn:Et; [|reflexivity].
      cbn. apply String.eqb_eq in Et.
      assert (Hi : Py.int hdr.2 <> None) by (apply (Hh hdr); [now left | exact Et]).
      destruct (Py.int hdr.2); [reflexivity | congruence].
    + now destruct (String.eqb (lower hdr.1) "x-user-agent-acl").
    + now destruct (String.eqb (lower hdr.1) "x-referrer-acl").
Qed.

Lemma fetch_run (c : t) (w : list event) (k : Connection) :
  conn c = OConnection k -> truthy (name c) = true ->
  _fetch_cdn_data (c, w)
  = match answer k w (head_request (name c)) with
    | Ok r =>
        if status_in_2xx (status r)
        then for_each (getheaders r) _fetch_cdn_data_hdr
               (c, w ++ [Sent (head_request (name c))])
        else (Ok tt, (c, w ++ [Sent (head_request (name c))]))
    | Raise e => (Raise e, (c, w ++ [Sent (head_request (name c))]))
    end.
Proof.
  intros Hc Hn. unfold _fetch_cdn_data. run. rewrite Hn. cbn. rewrite Hc. cbn.
  fold (head_request (name c)).
  destruct (answer k w (head_request (name c))) as [r|e]; cbn; [|reflexivity].
  now destruct (status_in_2xx (status r)).
Qed.

Lemma fetch_stores_headers_aux (c : t) (w : list event) (k : Connection)
    (r : Response) :
  conn c = OConnection k -> truthy (name c) = true ->
  answer k w (head_request (name c)) = Ok r ->
  200 <= status r < 300 ->
  ttl_headers_parse (getheaders r) ->
  exists c',
    _fetch_cdn_data (c, w) = (Ok tt, (c', w ++ [Sent (head_request (name c))])) /\
    cdn_uri c'
    = default (cdn_uri c) (VStr <$> last_header "x-cdn-uri" (getheaders r)) /\
    cdn_ttl c'
    = default (cdn_ttl c) (VInt <$> (last_header "x-ttl" (getheaders r) ≫= Py.int)) /\
    cdn_agent_acl c'
    = default (cdn_agent_acl c)
        (VStr <$> last_header "x-user-agent-acl" (getheaders r)) /\
    cdn_referer_acl c'
    = default (cdn_referer_acl c)
        (VStr <$> last_header "x-referrer-acl" (getheaders r)) /\
    name c' = name c /\ conn c' = conn c /\
    object_count c' = object_count c /\ size_used c' = size_used c.
Proof.
  intros Hc Hn Ha Hs Hp. rewrite (fetch_run c w k Hc Hn), Ha.
  apply status_in_2xx_spec in Hs. rewrite Hs.
  destruct (fetch_loop_stores (getheaders r) c
              (w ++ [Sent (head_request (name c))]) Hp) as (c' & Hl & H).
  exists c'. now split.
Qed.

(** X9. The metadata fetch on a success.  The fetch sends one [HEAD] to
    the CDN endpoint under the container's name.  When the answer is a
    2xx whose lifetime headers read as integers, each of the four CDN
    fields takes the value of the last header of its name, matched
    without regard to case, the lifetime as an integer, and keeps its
    value when the answer has no such header; nothing else changes. *)
Theorem fetch_stores_headers (c : t) (w : list event) (k : Connection)
    (r : Response) :
  conn c = OConnection k -> truthy (name c) = true ->
  answer k w (head_request (name c)) = Ok r ->
  200 <= status r < 300 ->
  ttl_headers_parse (getheaders r) ->
  exists c',
    _fetch_cdn_data (c, w) = (Ok tt, (c', w ++ [Sent (head_request (name c))])) /\
    cdn_uri c'
    = default (cdn_uri c) (VStr <$> last_header "x-cdn-uri" (getheaders r)) /\
    cdn_ttl c'
    = default (cdn_ttl c) (VInt <$> (last_header "x-ttl" (getheaders r) ≫= Py.int)) /\
    cdn_agent_acl c'
    = default (cdn_agent_acl c)
        (VStr <$> last_header "x-user-agent-acl" (getheaders r)) /\
    cdn_referer_acl c'
    = default (cdn_referer_acl c)
        (VStr <$> last_header "x-referrer-acl" (getheaders r)) /\
    name c' = name c /\ conn c' = conn c /\
    object_count c' = object_count c /\ size_used c' = size_used c.
Proof. apply fetch_stores_headers_aux. Qed.

Lemma fetch_stores_headers_witness :
  exists c',
    _fetch_cdn_data (photos (service true
                       {| status := 204; reason := "No Content";
                          getheaders := [("X-Ttl", "86400"); ("X-CDN-URI", "http://a");
                                         ("x-cdn-uri", "http://b")];
                          body := "" |}), [])
    = (Ok tt, (c', [Sent (head_request (VStr "photos"))])) /\
    cdn_uri c' = VStr "http://b" /\ cdn_ttl c' = VInt 86400.
Proof.
  destruct (fetch_stores_headers
              (photos (service true
                 {| status := 204; reason := "No Content";
                    getheaders := [("X-Ttl", "86400"); ("X-CDN-URI", "http://a");
                                   ("x-cdn-uri", "http://b")];
                    body := "" |})) []
              (service true
                 {| status := 204; reason := "No Content";
                    getheaders := [("X-Ttl", "86400"); ("X-CDN-URI", "http://a");
                                   ("x-cdn-uri", "http://b")];
                    body := "" |}) _ eq_refl eq_refl eq_refl)
    as (c' & Hrun & Hu & Ht & _).
  - cbn. lia.
  - intros hdr [<-|[<-|[<-|[]]]];
      first [intros E; vm_compute in E; discriminate E
            | intros _; vm_compute; congruence].
  - exists c'. split; [exact Hrun | split; [exact Hu | exact Ht]].
Defined.

(** X10. A lifetime that is no integer.  When the answer to the fetch is
    a 2xx and the first of its lifetime headers that does not read as an
    integer holds the text [v], the fetch raises the value error for [v]
    with its one request on the trace.  The headers from that one on are
    not stored: each CDN field is left with the value of the last header
    of its name among those before it, or with its old value, and nothing
    else has changed. *)
Theorem fetch_rejects_lifetime (c : t) (w : list event) (k : Connection)
    (r : Response) (before after : list (string * string))
    (h v : string) :
  conn c = OConnection k -> truthy (name c) = true ->
  answer k w (head_request (name c)) = Ok r ->
  200 <= status r < 300 ->
  getheaders r = before ++ (h, v) :: after ->
  ttl_headers_parse before ->
  lower h = "x-ttl" -> Py.int v = None ->
  exists c',
    _fetch_cdn_data (c, w)
    = (Raise (ValueError v), (c', w ++ [Sent (head_request (name c))])) /\
    cdn_uri c' = default (cdn_uri c) (VStr <$> last_header "x-cdn-uri" before) /\
    cdn_ttl c' = default (cdn_ttl c) (VInt <$> (last_header "x-ttl" before ≫= Py.int)) /\
    cdn_agent_acl c'
    = default (cdn_agent_acl c) (VStr <$> last_header "x-user-agent-acl" before) /\
    cdn_referer_acl c'
    = default (cdn_referer_acl c) (VStr <$> last_header "x-referrer-acl" before) /\
    name c' = name c /\ conn c' = conn c /\
    object_count c' = object_count c /\ size_used c' = size_used c.
Proof.
  intros Hc Hn Ha Hs Hh Hp Hl Hi. rewrite (fetch_run c w k Hc Hn), Ha.
  apply status_in_2xx_spec in Hs. rewrite Hs, Hh, for_each_app.
  destruct (fetch_loop_stores before c (w ++ [Sent (head_request (name c))]) Hp)
    as (c1 & -> & Hfields).
  exists c1. split; [|exact Hfields].
  rewrite for_each_cons. unfold _fetch_cdn_data_hdr. run. rewrite Hl, Hi. cbn.
  reflexivity.
Qed.

Lemma fetch_rejects_lifetime_witness :
  exists c',
    _fetch_cdn_data
      (photos (service true
         {| status := 200; reason := "OK";
            getheaders := [("X-CDN-URI", "http://a"); ("X-TTL", "1 day");
                           ("X-User-Agent-ACL", "Mozilla")];
            body := "" |}), [])
    = (Raise (ValueError "1 day"), (c', [Sent (head_request (VStr "photos"))])) /\
    cdn_uri c' = VStr "http://a" /\ cdn_agent_acl c' = VNone.
Proof.
  destruct (fetch_rejects_lifetime
           (photos (service true
              {| status := 200; reason := "OK";
                 getheaders := [("X-CDN-URI", "http://a"); ("X-TTL", "1 day");
                                ("X-User-Agent-ACL", "Mozilla")];
                 body := "" |})) []
           (service true
              {| status := 200; reason := "OK";
                 getheaders := [("X-CDN-URI", "http://a"); ("X-TTL", "1 day");
                                ("X-User-Agent-ACL", "Mozilla")];
                 body := "" |}) _
           [("X-CDN-URI", "http://a")] [("X-User-Agent-ACL", "Mozilla")]
           "X-TTL" "1 day" eq_refl eq_refl eq_refl)
    as (c' & Hrun & Hu & _ & Hag & _).
  - cbn. lia.
  - reflexivity.
  - intros hdr [<-|[]] E. vm_compute in E. discriminate E.
  - reflexivity.
  - reflexivity.
  - exists c'. split; [exact Hrun | split; [exact Hu | exact Hag]].
Defined.

(** ** Construction, continued *)

Lemma init_fresh (connection : object) (nm count size : value) (w : list event) :
  has_slash nm = false ->
  __init__ connection nm count size w
  = match connection with
    | OConnection k =>
        if cdn_enabled k then
          match _fetch_cdn_data (fresh connection nm count size, w) with
          | (Ok _, (self, w')) => (Ok self, w')
          | (Raise e, (_, w')) => (Raise e, w')
          end
        else (Ok (fresh connection nm count size), w)
    | _ => (Raise (AttributeError "cdn_enabled"), w)
    end.
Proof. intros H. now rewrite (init_run _ _ _ _ _ H). Qed.

(** X11. Construction away from the CDN.  For a name without separator:
    on a connection with the CDN disabled construction sends nothing and
    yields the container with the name and the counts it was given and
    with no CDN data, whatever the name, the empty one included; and
    where no connection is passed ([None], the default, or a list),
    construction raises the attribute error for [cdn_enabled]. *)
Theorem init_without_cdn (connection : object) (nm count size : value)
    (w : list event) :
  has_slash nm = false ->
  (forall k, connection = OConnection k -> cdn_enabled k = false ->
     __init__ connection nm count size w
     = (Ok (fresh connection nm count size), w)) /\
  ((forall k, connection <> OConnection k) ->
     __init__ connection nm count size w
     = (Raise (AttributeError "cdn_enabled"), w)).
Proof.
  intros Hs. rewrite (init_fresh _ _ _ _ _ Hs). split.
  - intros k -> Hk. now rewrite Hk.
  - intros Hno. destruct connection as [k| |]; try reflexivity.
    now contradiction (Hno k).
Qed.

Lemma init_without_cdn_witness :
  __init__ ONone (VStr "photos") VNone VNone []
  = (Raise (AttributeError "cdn_enabled"), []).
Proof.
  apply (proj2 (init_without_cdn ONone (VStr "photos") VNone VNone [] eq_refl)).
  intros k. discriminate.
Defined.

(** X12. Construction and a metadata answer that is no success.  On a
    connection with the CDN enabled and for a non-empty name without
    separator, construction sends the one [HEAD]; an answer outside the
    2xx range is passed over, and construction yields the container with
    no CDN data; an exception of the request layer leaves construction
    with that exception. *)
Theorem init_passes_over_failure (k : Connection) (nm count size : value)
    (w : list event) :
  cdn_enabled k = true -> truthy nm = true -> has_slash nm = false ->
  (forall r, answer k w (head_request nm) = Ok r -> ~ (200 <= status r < 300) ->
     __init__ (OConnection k) nm count size w
     = (Ok (fresh (OConnection k) nm count size), w ++ [Sent (head_request nm)])) /\
  (forall e, answer k w (head_request nm) = Raise e ->
     __init__ (OConnection k) nm count size w
     = (Raise e, w ++ [Sent (head_request nm)])).
Proof.
  intros Hk Hn Hs. rewrite (init_fresh _ _ _ _ _ Hs), Hk.
  rewrite (fetch_run (fresh (OConnection k) nm count size) w k eq_refl Hn).
  change (name (fresh (OConnection k) nm count size)) with nm.
  split.
  - intros r Ha Hst. now rewrite Ha, (not_2xx _ Hst).
  - intros e Ha. now rewrite Ha.
Qed.

Lemma init_passes_over_failure_witness :
  __init__ (OConnection (service true not_found)) (VStr "photos") VNone VNone []
  = (Ok (photos (service true not_found)), [Sent (head_request (VStr "photos"))]).
Proof.
  apply (proj1 (init_passes_over_failure (service true not_found) (VStr "photos")
                  VNone VNone [] eq_refl eq_refl eq_refl) not_found eq_refl).
  cbn. lia.
Defined.

(** X13. Construction and the metadata.  On a connection with the CDN
    enabled, for a non-empty name without separator and a 2xx answer
    whose lifetime headers read as integers, construction yields a
    container with the name and counts it was given, whose CDN fields
    hold the values of the last headers of their names and [None] where
    the answer has none; the container is public from the start exactly
    when the answer carries a URI header. *)
Theorem init_reads_metadata (k : Connection) (nm count size : value)
    (w : list event) (r : Response) :
  cdn_enabled k = true -> truthy nm = true -> has_slash nm = false ->
  answer k w (head_request nm) = Ok r ->
  200 <= status r < 300 ->
  ttl_headers_parse (getheaders r) ->
  exists c,
    __init__ (OConnection k) nm count size w
    = (Ok c, w ++ [Sent (head_request nm)]) /\
    name c = nm /\ conn c = OConnection k /\
    object_count c = count /\ size_used c = size /\
    cdn_uri c = default VNone (VStr <$> last_header "x-cdn-uri" (getheaders r)) /\
    cdn_ttl c = default VNone (VInt <$> (last_header "x-ttl" (getheaders r) ≫= Py.int)) /\
    cdn_agent_acl c
    = default VNone (VStr <$> last_header "x-user-agent-acl" (getheaders r)) /\
    cdn_referer_acl c
    = default VNone (VStr <$> last_header "x-referrer-acl" (getheaders r)) /\
    forall w', is_public (c, w') = (Ok (has_header "x-cdn-uri" r), (c, w')).
Proof.
  intros Hk Hn Hs Ha Hst Hp. rewrite (init_fresh _ _ _ _ _ Hs), Hk.
  destruct (fetch_stores_headers_aux (fresh (OConnection k) nm count size) w k r
              eq_refl Hn Ha Hst Hp)
    as (c & -> & Hu & Ht & Hag & Hr & Hnm & Hc & Ho & Hz).
  exists c. cbn in *. repeat split; try assumption.
  intros w'. rewrite (is_public_run c w' k Hc), Hk, Hu. f_equal. f_equal.
  destruct (has_header "x-cdn-uri" r) eqn:Hh.
  - apply has_header_last in Hh.
    now destruct (last_header "x-cdn-uri" (getheaders r)).
  - destruct (last_header "x-cdn-uri" (getheaders r)) eqn:Hl; [|reflexivity].
    assert (Hh' : has_header "x-cdn-uri" r = true)
      by (apply has_header_last; congruence).
    congruence.
Qed.

Lemma init_reads_metadata_witness :
  exists c,
    __init__ (OConnection (service true created)) (VStr "photos") (VInt 3) (VInt 1024) []
    = (Ok c, [Sent (head_request (VStr "photos"))]) /\
    cdn_uri c = VStr "http://cdn.example.com/photos" /\ object_count c = VInt 3.
Proof.
  destruct (init_reads_metadata (service true created) (VStr "photos")
              (VInt 3) (VInt 1024) [] created eq_refl eq_refl eq_refl eq_refl)
    as (c & Hrun & _ & _ & Ho & _ & Hu & _).
  - cbn. lia.
  - intros hdr [<-|[]] E. vm_compute in E. discriminate E.
  - exists c. split; [exact Hrun | split; [exact Hu | exact Ho]].
Defined.

(** ** The request layer *)

(** X14. Exceptions of the request layer are not caught.  Once past
    their guards, [make_public], [make_private], [list_objects],
    [delete_object] and the metadata fetch send their request, and when
    the connection raises in place of answering that request they raise
    that very exception; the container is as it was, the one request is
    on the trace and no body was read. *)
Theorem request_errors_propagate (c : t) (w : list event) (k : Connection)
    (ttl user_agent_acl referer_acl object_name : value)
    (parms : gmap string value) :
  conn c = OConnection k -> truthy (name c) = true ->
  (cdn_enabled k = true ->
     passes_on_exception k c w (make_public ttl user_agent_acl referer_acl (c, w)) /\
     passes_on_exception k c w (make_private (c, w))) /\
  passes_on_exception k c w (list_objects parms (c, w)) /\
  (truthy object_name = true ->
     passes_on_exception k c w (delete_object (Name object_name) (c, w))) /\
  passes_on_exception k c w (_fetch_cdn_data (c, w)).
Proof.
  intros Hc Hn. unfold passes_on_exception. split; [|split; [|split]].
  - intros Hk. split.
    + pose proof (make_public_run c w k ttl user_agent_acl referer_acl Hc Hk Hn) as E.
      cbn zeta in E. rewrite E. clear E.
      match goal with |- context [answer k w ?rq] =>
        exists rq, []; destruct (answer k w rq) as [r|e0] eqn:Ha end.
      * destruct (status_lt_200_or_ge_300 (status r)).
        -- split; [reflexivity | discriminate].
        -- rewrite store_uri_last. split; [reflexivity | discriminate].
      * split; [reflexivity|]. intros e E. now injection E as <-.
    + pose proof (make_private_run c w k Hc Hk Hn) as E.
      cbn zeta in E. rewrite E. clear E.
      match goal with |- context [answer k w ?rq] =>
        exists rq, []; destruct (answer k w rq) as [r|e0] eqn:Ha end.
      * split; [reflexivity | discriminate].
      * split; [reflexivity|]. intros e E. now injection E as <-.
  - pose proof (list_objects_run c w k parms Hc Hn) as E.
    cbn zeta in E. rewrite E. clear E.
    match goal with |- context [answer k w ?rq] =>
      exists rq; destruct (answer k w rq) as [r|e0] eqn:Ha end.
    + exists [BodyRead r]. split; [reflexivity | discriminate].
    + exists []. split; [reflexivity|]. intros e E. now injection E as <-.
  - intros Ho.
    pose proof (delete_object_run c w k (Name object_name) object_name Hc Hn
                  (or_introl eq_refl)) as E.
    cbn zeta in E. rewrite Ho in E. rewrite E. clear E.
    match goal with |- context [answer k w ?rq] =>
      exists rq; destruct (answer k w rq) as [r|e0] eqn:Ha end.
    + exists [BodyRead r]. split; [reflexivity | discriminate].
    + exists []. split; [reflexivity|]. intros e E. now injection E as <-.
  - rewrite (fetch_run c w k Hc Hn). exists (head_request (name c)), [].
    destruct (answer k w (head_request (name c))) as [r|e0] eqn:Ha.
    + destruct (status_in_2xx (status r)).
      * destruct (fetch_loop_frame (getheaders r) c
                    (w ++ [Sent (head_request (name c))])) as (r' & c' & -> & _).
        split; [reflexivity | discriminate].
      * split; [reflexivity | discriminate].
    + split; [reflexivity|]. intros e E. now injection E as <-.
Qed.

Lemma request_errors_propagate_witness :
  passes_on_exception
    {| cdn_enabled := false;
       answer := fun _ rq =>
         match rq_endpoint rq with
         | CDN => Ok created
         | Storage => Raise (TransportError "reset")
         end |}
    (photos {| cdn_enabled := false;
               answer := fun _ rq =>
                 match rq_endpoint rq with
                 | CDN => Ok created
                 | Storage => Raise (TransportError "reset")
                 end |}) []
    (list_objects ∅
       (photos {| cdn_enabled := false;
                  answer := fun _ rq =>
                    match rq_endpoint rq with
                    | CDN => Ok created
                    | Storage => Raise (TransportError "reset")
                    end |}, [])).
Proof.
  apply (request_errors_propagate
           (photos {| cdn_enabled := false;
                      answer := fun _ rq =>
                        match rq_endpoint rq with
                        | CDN => Ok created
                        | Storage => Raise (TransportError "reset")
                        end |}) []
           {| cdn_enabled := false;
              answer := fun _ rq =>
                match rq_endpoint rq with
                | CDN => Ok created
                | Storage => Raise (TransportError "reset")
                end |}
           (VInt 3600) VNone VNone (VStr "cat.jpg") ∅ eq_refl eq_refl).
Defined.

Example list_objects_reset :
  list_objects ∅
    (photos {| cdn_enabled := false;
               answer := fun _ rq =>
                 match rq_endpoint rq with
                 | CDN => Ok created
                 | Storage => Raise (TransportError "reset")
                 end |}, [])
  = (Raise (TransportError "reset"),
     (photos {| cdn_enabled := false;
                answer := fun _ rq =>
                  match rq_endpoint rq with
                  | CDN => Ok created
                  | Storage => Raise (TransportError "reset")
                  end |},
      [Sent {| rq_endpoint := Storage; rq_method := "GET";
               rq_path := [VStr "photos"]; rq_parms := Some ∅;
               rq_hdrs := None |}])).
Proof. reflexivity. Qed.

Ltac one_request :=
  first
    [ exists []; split; [now rewrite app_nil_r | cbn; lia]
    | eexists [_]; split; [reflexivity | cbn; lia]
    | eexists [_; _]; split; [now rewrite <- app_assoc | cbn; lia] ].

(** X15. One request at most.  Whatever they are called on and however
    they end, [make_public], [make_private], [is_public], [public_uri],
    [list_objects], [delete_object] and the metadata fetch only add to the
    trace, and what they add holds at most one request; so does the
    constructor. *)
Theorem methods_send_at_most_one (c : t) (w : list event)
    (ttl user_agent_acl referer_acl : value) (parms : gmap string value)
    (target : name_or_handle) (connection : object) (nm count size : value) :
  sends_at_most_one w (make_public ttl user_agent_acl referer_acl (c, w)) /\
  sends_at_most_one w (make_private (c, w)) /\
  sends_at_most_one w (is_public (c, w)) /\
  sends_at_most_one w (public_uri (c, w)) /\
  sends_at_most_one w (list_objects parms (c, w)) /\
  sends_at_most_one w (delete_object target (c, w)) /\
  sends_at_most_one w (_fetch_cdn_data (c, w)) /\
  (exists evs, snd (__init__ connection nm count size w) = w ++ evs /\
               (length (sent evs) <= 1)%nat).
Proof.
  assert (Hfetch : forall c0, sends_at_most_one w (_fetch_cdn_data (c0, w))).
  { intros c0. unfold sends_at_most_one, trace_of, _fetch_cdn_data. run.
    destruct (truthy (name c0)); cbn; [|one_request].
    destruct (conn c0) as [k| |]; cbn; try one_request.
    match goal with |- context [answer k w ?rq] =>
      destruct (answer k w rq) as [r|e]; cbn; [|one_request];
      destruct (status_in_2xx (status r)); cbn; [|one_request];
      destruct (fetch_loop_frame (getheaders r) c0 (w ++ [Sent rq]))
        as (r' & c' & -> & _)
    end.
    cbn. one_request. }
  repeat split; try apply Hfetch.
  - unfold sends_at_most_one, trace_of.
    destruct (guards_cases c) as [(k & Hc & Hk & Hn)|Hstop].
    + destruct (make_public_outcome c w k ttl user_agent_acl referer_acl Hc Hk Hn)
        as (rq & _ & _ & _ & _ & _ & _ & _ & Hout).
      destruct Hout as [(e & _ & ->)|[(r & _ & _ & ->)|(r & uri & _ & _ & -> & _)]];
        cbn; one_request.
    + rewrite (make_public_stopped c w ttl user_agent_acl referer_acl Hstop).
      cbn. one_request.
  - unfold sends_at_most_one, trace_of, make_private. run.
    destruct (truthy (name c)); cbn; [|one_request].
    destruct (conn c) as [k| |]; cbn; try one_request.
    destruct (cdn_enabled k); cbn; [|one_request].
    match goal with |- context [answer k w ?rq] =>
      destruct (answer k w rq) as [r|e]; cbn; [|one_request] end.
    destruct (status_lt_200_or_ge_300 (status r)); cbn; one_request.
  - unfold sends_at_most_one, trace_of, is_public. run.
    destruct (conn c) as [k| |]; cbn; try one_request.
    destruct (cdn_enabled k); cbn; one_request.
  - unfold sends_at_most_one, trace_of, public_uri, is_public. run.
    destruct (truthy (name c)); cbn; [|one_request].
    destruct (conn c) as [k| |]; cbn; try one_request.
    destruct (cdn_enabled k); cbn; [|one_request].
    destruct (is_not_none (cdn_uri c)); cbn; one_request.
  - unfold sends_at_most_one, trace_of, list_objects. run.
    destruct (truthy (name c)); cbn; [|one_request].
    destruct (conn c) as [k| |]; cbn; try one_request.
    match goal with |- context [answer k w ?rq] =>
      destruct (answer k w rq) as [r|e]; cbn; [|one_request] end.
    destruct (status_lt_200_or_gt_299 (status r)); cbn; one_request.
  - unfold sends_at_most_one, trace_of, delete_object. run.
    destruct (truthy (name c)); cbn; [|one_request].
    destruct (truthy match target with Name v => v | Handle o => ob_name o end);
      cbn; [|one_request].
    destruct (conn c) as [k| |]; cbn; try one_request.
    match goal with |- context [answer k w ?rq] =>
      destruct (answer k w rq) as [r|e]; cbn; [|one_request] end.
    destruct (status_lt_200_or_gt_299 (status r)); cbn; one_request.
  - destruct (has_slash nm) eqn:Hs.
    + destruct nm as [| | |s]; try discriminate Hs.
      destruct (char_in_split _ _ Hs) as (s1 & s2 & ->).
      change (String "/" s2) with ("/" +:+ s2).
      rewrite init_rejects_separator_aux. cbn. one_request.
    + rewrite (init_fresh _ _ _ _ _ Hs).
      destruct connection as [k| |]; cbn; try one_request.
      destruct (cdn_enabled k); cbn; [|one_request].
      destruct (Hfetch (fresh (OConnection k) nm count size)) as (evs & He & Hl).
      unfold trace_of in He.
      destruct (_fetch_cdn_data (fresh (OConnection k) nm count size, w))
        as [[[]|e] [c' w']]; cbn in *; now exists evs.
Qed.

(** ** Results, continued *)

Lemma init_identity (connection : object) (nm count size : value)
    (w w' : list event) (c : t) :
  __init__ connection nm count size w = (Ok c, w') ->
  name c = nm /\ conn c = connection.
Proof.
  intros H. destruct (has_slash nm) eqn:Hs.
  - destruct nm as [| | |s]; try discriminate Hs.
    destruct (char_in_split _ _ Hs) as (s1 & s2 & ->).
    change (String "/" s2) with ("/" +:+ s2) in H.
    rewrite init_rejects_separator_aux in H. discriminate H.
  - rewrite (init_fresh _ _ _ _ _ Hs) in H.
    destruct connection as [k| |]; try discriminate H.
    destruct (cdn_enabled k).
    + destruct (fetch_frame (fresh (OConnection k) nm count size) w)
        as (r & c' & w1 & Hf & Hn & Hc).
      rewrite Hf in H. destruct r as [[]|e]; [|discriminate H].
      injection H as <- <-. now split.
    + injection H as <- <-. now split.
Qed.

Lemma item_spec (l : list value) (key : Z) :
  let len := Z.of_nat (length l) in
  item_at l key
  = if (key <? - len) || (len <=? key) then Raise IndexError
    else match l !! Z.to_nat (if key <? 0 then key + len else key) with
         | Some v => Ok v
         | None => Raise IndexError
         end.
Proof.
  cbn zeta. unfold ContainerResults.item.
  pose proof (Nat2Z.is_nonneg (length l)) as Hlen.
  destruct (Z.ltb_spec key 0) as [Hneg|Hpos].
  - destruct (Z.leb_spec (Z.of_nat (length l)) key); [lia|].
    rewrite orb_false_r.
    destruct (Z.ltb_spec key (- Z.of_nat (length l))),
      (Z.ltb_spec (key + Z.of_nat (length l)) 0); try lia; reflexivity.
  - destruct (Z.ltb_spec key (- Z.of_nat (length l))); [lia|].
    destruct (Z.ltb_spec key 0); [lia|]. cbn.
    destruct (Z.leb_spec (Z.of_nat (length l)) key); [|reflexivity].
    rewrite (proj2 (lookup_ge_None l (Z.to_nat key))) by lia. reflexivity.
Qed.

(** X16. Index access.  A key outside the sequence raises the index error
    with nothing sent; a key inside it, counted from the end when
    negative, is the construction of a container for the name at that
    position with the stored connection, and a container so obtained
    bears that name and that connection. *)
Theorem getitem_by_position (self : ContainerResults.t) (key : Z)
    (w : list event) :
  let names := ContainerResults._containers self in
  let len := ContainerResults.__len__ self in
  let pos := Z.to_nat (if key <? 0 then key + len else key) in
  (key < - len \/ len <= key ->
     ContainerResults.__getitem__ self key w = (Raise IndexError, w)) /\
  (- len <= key < len ->
     exists v, names !! pos = Some v /\
       ContainerResults.__getitem__ self key w
       = __init__ (ContainerResults.conn self) v VNone VNone w) /\
  (forall c w', ContainerResults.__getitem__ self key w = (Ok c, w') ->
     - len <= key < len /\ names !! pos = Some (name c) /\
     conn c = ContainerResults.conn self).
Proof.
  cbn zeta. unfold ContainerResults.__getitem__, ContainerResults.__len__.
  fold (item_at (ContainerResults._containers self) key).
  set (l := ContainerResults._containers self).
  pose proof (item_spec l key) as E. cbn zeta in E.
  assert (Hin : - Z.of_nat (length l) <= key < Z.of_nat (length l) ->
            exists v, l !! Z.to_nat (if key <? 0 then key + Z.of_nat (length l) else key)
                      = Some v /\ item_at l key = Ok v).
  { intros Hr. rewrite E.
    destruct (Z.ltb_spec key (- Z.of_nat (length l))); [lia|].
    destruct (Z.leb_spec (Z.of_nat (length l)) key); [lia|]. cbn.
    destruct (l !! Z.to_nat (if key <? 0 then key + Z.of_nat (length l) else key))
      as [v|] eqn:Hl; [now exists v|].
    apply lookup_ge_None in Hl. destruct (Z.ltb_spec key 0); lia. }
  assert (Hout : key < - Z.of_nat (length l) \/ Z.of_nat (length l) <= key ->
            item_at l key = Raise IndexError).
  { intros Hr. rewrite E.
    destruct (Z.ltb_spec key (- Z.of_nat (length l))); [reflexivity|].
    destruct (Z.leb_spec (Z.of_nat (length l)) key); [reflexivity | lia]. }
  split; [|split].
  - intros Hr. run. now rewrite (Hout Hr).
  - intros Hr. destruct (Hin Hr) as (v & Hl & Hv). exists v.
    split; [exact Hl|]. run. now rewrite Hv.
  - intros c w' H.
    destruct (Z_lt_dec key (- Z.of_nat (length l))) as [Hlo|Hlo];
      [revert H; run; rewrite (Hout (or_introl Hlo)); discriminate|].
    destruct (Z_le_dec (Z.of_nat (length l)) key) as [Hhi|Hhi];
      [revert H; run; rewrite (Hout (or_intror Hhi)); discriminate|].
    assert (Hr : - Z.of_nat (length l) <= key < Z.of_nat (length l)) by lia.
    destruct (Hin Hr) as (v & Hl & Hv).
    revert H. run. rewrite Hv. intros H.
    destruct (init_identity _ _ _ _ _ _ _ H) as [Hn Hc].
    split; [exact Hr|]. split; [now rewrite Hn | exact Hc].
Qed.

Lemma getitem_by_position_witness :
  ContainerResults.__getitem__
    (ContainerResults.__init__ (OConnection (service false created))
       [VStr "a"; VStr "b"]) 2 []
  = (Raise IndexError, []).
Proof.
  apply (proj1 (getitem_by_position
                  (ContainerResults.__init__ (OConnection (service false created))
                     [VStr "a"; VStr "b"]) 2 [])).
  right. vm_compute. intros H. discriminate H.
Defined.

Lemma first_index_some (l : list value) (v : value) (n : nat) :
  ContainerResults.first_index l v = Some n ->
  exists x, l !! n = Some x /\ ContainerResults.equal x v = true /\
    forall j x', (j < n)%nat -> l !! j = Some x' ->
                 ContainerResults.equal x' v = false.
Proof.
  revert n. induction l as [|y l IH]; intros n H; [discriminate H|].
  cbn in H. destruct (ContainerResults.equal y v) eqn:E.
  - injection H as <-. exists y. repeat split; try assumption. intros j x' Hj. lia.
  - destruct (ContainerResults.first_index l v) as [m|]; [|discriminate H].
    injection H as <-. destruct (IH m eq_refl) as (x & Hx & Hv & Hf).
    exists x. repeat split; try assumption.
    intros [|j] x' Hj Hl; cbn in Hl.
    + now injection Hl as <-.
    + apply (Hf j); [lia | exact Hl].
Qed.

Lemma first_index_none (l : list value) (v : value) :
  ContainerResults.first_index l v = None ->
  forall j x', l !! j = Some x' -> ContainerResults.equal x' v = false.
Proof.
  induction l as [|y l IH]; intros H j x' Hl; [discriminate Hl|].
  cbn in H. destruct (ContainerResults.equal y v) eqn:E; [discriminate H|].
  destruct (ContainerResults.first_index l v); [discriminate H|].
  destruct j as [|j]; cbn in Hl.
  - now injection Hl as <-.
  - now apply (IH eq_refl j).
Qed.

Lemma slice_lookup {A} (l : list A) (i j : Z) (n : nat) (x : A) :
  let len := Z.of_nat (length l) in
  slice l i j !! n = Some x
  <-> l !! (clamp len i + n)%nat = Some x /\ (clamp len i + n < clamp len j)%nat.
Proof.
  cbn zeta. unfold slice. rewrite lookup_take_Some, lookup_drop. split.
  - intros [Hl Hn]. split; [exact Hl | lia].
  - intros [Hl Hn]. split; [exact Hl | lia].
Qed.

(** X17. [index] with its bounds.  The bounds are those of a slice:
    counted from the end when negative, cut to the sequence, and the whole
    sequence when left out.  The result is the first position within
    them whose name equals the value, and there is no result, the
    [ValueError] of the list, exactly when no position within them holds
    an equal name. *)
Theorem index_finds_first (self : ContainerResults.t) (v : value)
    (start stop : option Z) :
  let names := ContainerResults._containers self in
  let len := ContainerResults.__len__ self in
  let lo := clamp len (default 0 start) in
  let hi := clamp len (default len stop) in
  match ContainerResults.index self v start stop with
  | Some i =>
      0 <= i /\ (lo <= Z.to_nat i < hi)%nat /\
      exists x, names !! Z.to_nat i = Some x /\
                ContainerResults.equal x v = true /\
                forall j x', (lo <= j < Z.to_nat i)%nat -> names !! j = Some x' ->
                             ContainerResults.equal x' v = false
  | None =>
      forall j x', (lo <= j < hi)%nat -> names !! j = Some x' ->
                   ContainerResults.equal x' v = false
  end.
Proof.
  cbn zeta. unfold ContainerResults.index, ContainerResults.__len__.
  set (l := ContainerResults._containers self).
  set (len := Z.of_nat (length l)).
  set (lo := clamp len (default 0 start)).
  set (hi := clamp len (default len stop)).
  destruct (ContainerResults.first_index (slice l (default 0 start) (default len stop)) v)
    as [n|] eqn:E; cbn.
  - destruct (first_index_some _ _ _ E) as (x & Hx & Hv & Hf).
    apply slice_lookup in Hx as [Hx Hn]. fold len lo hi in Hx, Hn.
    rewrite Nat2Z.id. split; [lia|]. split; [lia|].
    exists x. repeat split; try assumption.
    intros j x' Hj Hl. apply (Hf (j - lo)%nat x'); [lia|].
    apply slice_lookup. fold len lo hi.
    replace (lo + (j - lo))%nat with j by lia. split; [exact Hl | lia].
  - intros j x' Hj Hl.
    apply (first_index_none _ _ E (j - lo)%nat x').
    apply slice_lookup. fold len lo hi.
    replace (lo + (j - lo))%nat with j by lia. split; [exact Hl | lia].
Qed.

Lemma clamp_bounds (n : nat) :
  clamp (Z.of_nat n) 0 = 0%nat /\ clamp (Z.of_nat n) (Z.of_nat n) = n.
Proof.
  unfold clamp. split.
  - change (0 <? 0) with false. cbn iota. lia.
  - destruct (Z.ltb_spec (Z.of_nat n) 0); lia.
Qed.

Lemma slice_whole {A} (l : list A) : slice l 0 (Z.of_nat (length l)) = l.
Proof.
  unfold slice. destruct (clamp_bounds (length l)) as [-> ->].
  rewrite drop_0, Nat.sub_0_r. apply firstn_all.
Qed.

Lemma first_index_exists (l : list value) (v : value) :
  existsb (fun x => ContainerResults.equal x v) l = true
  <-> ContainerResults.first_index l v <> None.
Proof.
  induction l as [|y l IH]; cbn; [split; [discriminate | congruence]|].
  destruct (ContainerResults.equal y v); cbn; [split; [discriminate | reflexivity]|].
  rewrite IH. destruct (ContainerResults.first_index l v); cbn;
    split; congruence.
Qed.

Lemma count_exists (l : list value) (v : value) :
  existsb (fun x => ContainerResults.equal x v) l = true
  <-> (0 < length (filter (fun x => ContainerResults.equal x v = true) l))%nat.
Proof.
  induction l as [|y l IH]; [cbn; split; [discriminate | lia]|].
  rewrite filter_cons. cbn [existsb].
  destruct (ContainerResults.equal y v) eqn:E.
  - rewrite decide_True by reflexivity. cbn. split; [lia | reflexivity].
  - rewrite decide_False by discriminate. exact IH.
Qed.

(** X18. Membership, [index] and [count] agree.  A value is in the
    results exactly when [index] without bounds finds it, and exactly
    when its count is positive; and the count never exceeds the length. *)
Theorem membership_agrees (self : ContainerResults.t) (v : value) :
  (ContainerResults.__contains__ self v = true
   <-> ContainerResults.index self v None None <> None) /\
  (ContainerResults.__contains__ self v = true
   <-> 0 < ContainerResults.count self v) /\
  0 <= ContainerResults.count self v <= ContainerResults.__len__ self.
Proof.
  unfold ContainerResults.__contains__, ContainerResults.index,
    ContainerResults.count, ContainerResults.__len__.
  set (l := ContainerResults._containers self). cbn [default].
  rewrite slice_whole. repeat split.
  - intros H. apply first_index_exists in H.
    now destruct (ContainerResults.first_index l v).
  - intros H. apply first_index_exists.
    now destruct (ContainerResults.first_index l v).
  - intros H. apply count_exists in H. lia.
  - intros H. apply count_exists. lia.
  - lia.
  - apply inj_le. apply length_filter.
Qed.

(** X19. Slices.  A slice over an empty range returns the empty list with
    nothing sent.  A slice over any other range returns nothing: the
    construction of its first container raises, the naming error when
    that name holds a separator and the attribute error for [cdn_enabled]
    otherwise, and nothing is sent. *)
Theorem getslice_empty_or_raises (self : ContainerResults.t) (i j : Z)
    (w : list event) :
  match slice (ContainerResults._containers self) i j with
  | [] => ContainerResults.__getslice__ self i j w = (Ok [], w)
  | nm :: _ =>
      ContainerResults.__getslice__ self i j w
      = (Raise (if has_slash nm then InvalidContainerName nm
                else AttributeError "cdn_enabled"), w)
  end.
Proof.
  unfold ContainerResults.__getslice__.
  destruct (slice (ContainerResults._containers self) i j) as [|nm rest];
    [reflexivity|].
  cbn [comprehension]. run.
  destruct (has_slash nm) eqn:E.
  - destruct nm as [| | |s]; try discriminate E.
    destruct (char_in_split _ _ E) as (s1 & s2 & ->).
    change (String "/" s2) with ("/" +:+ s2).
    now rewrite init_rejects_separator_aux.
  - now rewrite (init_fresh _ _ _ _ _ E).
Qed.

(** X20. The three tests of the status.  The metadata fetch asks for
    [200 <= status < 300], [make_public] and [make_private] for its
    negation as [status < 200 or status >= 300], [list_objects] and
    [delete_object] as [status < 200 or status > 299]: on every integer
    the three agree, so that all methods draw the line of success at the
    same place. *)
Theorem status_tests_agree (st : Z) :
  (status_in_2xx st = true <-> 200 <= st < 300) /\
  status_lt_200_or_ge_300 st = negb (status_in_2xx st) /\
  status_lt_200_or_gt_299 st = negb (status_in_2xx st).
Proof.
  split; [apply status_in_2xx_spec|].
  split; [apply status_ge_300_spec | apply status_gt_299_spec].
Qed.
